(** * cdk-nest-docker: the synthesized stacks and their build scripts

    The repository is a set of AWS CDK stacks (TypeScript).  Each stack
    constructor records configuration into the synthesis tree; the only
    behaviour the repository authors itself is the shell code of the
    CodeBuild build specs.  This development embeds

    - the configuration each constructor records ([ECSEnvironmentStack],
      the two [ApplicationStack] versions, [ImageBuilderStack],
      [PipelineStack], the test of [test/aws-nest-docker.test.ts]);
    - the fragment of bash the build specs run: [export], [if [ .. ]],
      [if [[ .. =~ .. ]]], [printf] with a redirection, [docker] command
      lines, with parameter expansion and field splitting.  *)

From Stdlib Require Import String Ascii List Bool Arith Lia.
From stdpp Require Import base gmap strings list.

Open Scope string_scope.
Open Scope list_scope.

(* ------------------------------------------------------------------ *)
(** ** Strings *)

Fixpoint str_forallb (f : ascii -> bool) (s : string) : bool :=
  match s with
  | EmptyString => true
  | String c s' => f c && str_forallb f s'
  end.

Fixpoint str_existsb (f : ascii -> bool) (s : string) : bool :=
  match s with
  | EmptyString => false
  | String c s' => f c || str_existsb f s'
  end.

(** [sub] occurs in [s] (at some position). *)
Fixpoint str_contains (sub s : string) : bool :=
  String.prefix sub s
  || match s with
     | EmptyString => false
     | String _ s' => str_contains sub s'
     end.

Definition char_in (cs : string) (c : ascii) : bool :=
  str_existsb (fun d => Ascii.eqb c d) cs.

Definition is_lower (c : ascii) : bool :=
  (Nat.leb (Ascii.nat_of_ascii "a"%char) (Ascii.nat_of_ascii c))
  && (Nat.leb (Ascii.nat_of_ascii c) (Ascii.nat_of_ascii "z"%char)).
Definition is_upper (c : ascii) : bool :=
  (Nat.leb (Ascii.nat_of_ascii "A"%char) (Ascii.nat_of_ascii c))
  && (Nat.leb (Ascii.nat_of_ascii c) (Ascii.nat_of_ascii "Z"%char)).
Definition is_digit (c : ascii) : bool :=
  (Nat.leb (Ascii.nat_of_ascii "0"%char) (Ascii.nat_of_ascii c))
  && (Nat.leb (Ascii.nat_of_ascii c) (Ascii.nat_of_ascii "9"%char)).
Definition is_alnum (c : ascii) : bool := is_lower c || is_upper c || is_digit c.

(* ------------------------------------------------------------------ *)
(** ** The bash fragment run by the build specs *)

Module Shell.

(** The shell's variables.  Unset variables are absent. *)
Abbreviation env := (gmap string string).

(** Default IFS: space, tab and newline. *)
Definition ifs_char (c : ascii) : bool :=
  Ascii.eqb c " "%char || Ascii.eqb c (ascii_of_nat 9) || Ascii.eqb c (ascii_of_nat 10).

(** [$x] / [${x}]: an unset variable expands to the empty string. *)
Definition var_value (e : env) (x : string) : string :=
  match e !! x with Some v => v | None => "" end.

(** A word of a command line, as the shell parsed it: literal text
    (never containing a blank: the parser splits there) and unquoted
    parameter expansions. *)
Inductive wpart :=
| Lit (s : string)
| Var (x : string).

Definition word := list wpart.

(** After expansion a word is a sequence of characters in which the
    IFS characters produced by an unquoted expansion separate fields. *)
Inductive tok := Ch (c : ascii) | Sep.

Fixpoint lit_toks (s : string) : list tok :=
  match s with
  | EmptyString => []
  | String c s' => Ch c :: lit_toks s'
  end.

Fixpoint exp_toks (s : string) : list tok :=
  match s with
  | EmptyString => []
  | String c s' => (if ifs_char c then Sep else Ch c) :: exp_toks s'
  end.

Definition part_toks (e : env) (p : wpart) : list tok :=
  match p with
  | Lit s => lit_toks s
  | Var x => exp_toks (var_value e x)
  end.

(** Splitting at separators; fields left empty by IFS whitespace are
    removed (an unquoted word expanding to nothing yields no field). *)
Fixpoint split_toks (ts : list tok) (cur : string) : list string :=
  match ts with
  | [] => [cur]
  | Ch c :: ts' => split_toks ts' (cur +:+ String c EmptyString)
  | Sep :: ts' => cur :: split_toks ts' ""
  end.

Definition fields (ts : list tok) : list string :=
  List.filter (fun f => negb (String.eqb f "")) (split_toks ts "").

(** Expansion of one unquoted word into its fields.  Pathname expansion
    is not part of the fragment: the words of the build specs are
    registry URIs, tags and names, none containing [*], [?] or [[]. *)
Definition expand_word (e : env) (w : word) : list string :=
  fields (concat (map (part_toks e) w)).

(** The argument vector of a simple command. *)
Definition argv (e : env) (ws : list word) : list string :=
  concat (map (expand_word e) ws).

(** [printf] (the bash builtin): one pass over the format.  It returns
    the output, the arguments left, and whether a conversion consumed an
    argument.  The fragment has the conversions [%s] and [%%] and the
    escapes of backslash, n, t and the double quote; any other conversion or escape is
    outside it ([None]). *)
Fixpoint printf_pass (fmt : string) (args : list string)
  : option (string * list string * bool) :=
  match fmt with
  | EmptyString => Some ("", args, false)
  | String c f =>
      if Ascii.eqb c "%"%char then
        match f with
        | String d f' =>
            if Ascii.eqb d "%"%char then
              match printf_pass f' args with
              | Some (o, r, u) => Some (String "%" o, r, u)
              | None => None
              end
            else if Ascii.eqb d "s"%char then
              let '(a, rest) := match args with [] => ("", []) | a :: r => (a, r) end in
              match printf_pass f' rest with
              | Some (o, r, _) => Some (a +:+ o, r, true)
              | None => None
              end
            else None
        | EmptyString => None
        end
      else if Ascii.eqb c "\"%char then
        match f with
        | String d f' =>
            let esc :=
              if Ascii.eqb d "\"%char then Some "\"%char
              else if Ascii.eqb d "n"%char then Some (ascii_of_nat 10)
              else if Ascii.eqb d "t"%char then Some (ascii_of_nat 9)
              else if Ascii.eqb d (ascii_of_nat 34) then Some (ascii_of_nat 34)
              else None in
            match esc, printf_pass f' args with
            | Some x, Some (o, r, u) => Some (String x o, r, u)
            | _, _ => None
            end
        | EmptyString => None
        end
      else
        match printf_pass f args with
        | Some (o, r, u) => Some (String c o, r, u)
        | None => None
        end
  end.

(** The format is reused while arguments remain, provided the last pass
    consumed one; each pass that goes on consumes one, so [length args]
    more passes always suffice. *)
Fixpoint printf_loop (fuel : nat) (fmt : string) (args : list string) : option string :=
  match fuel with
  | O => Some ""
  | S n =>
      match printf_pass fmt args with
      | None => None
      | Some (o, rest, used) =>
          match rest with
          | [] => Some o
          | _ :: _ =>
              if used then
                match printf_loop n fmt rest with
                | Some o' => Some (o +:+ o')
                | None => None
                end
              else Some o
          end
      end
  end.

Definition printf (fmt : string) (args : list string) : option string :=
  printf_loop (S (length args)) fmt args.

(** Characters that [printf] copies verbatim from a format string. *)
Definition fmt_safe (c : ascii) : bool :=
  negb (Ascii.eqb c "%"%char) && negb (Ascii.eqb c "\"%char).

End Shell.

(* ------------------------------------------------------------------ *)
(** ** Build-spec commands and their execution *)

Module BuildSpec.
Import Shell.

(** The git commands of the pre_build phase, with their output after the
    command substitution removed trailing newlines. *)
Inductive gitcmd :=
| GitSymbolicRefShort   (* git symbolic-ref HEAD --short 2>/dev/null *)
| GitNameRevBranch.     (* git rev-parse HEAD | xargs git name-rev | cut .. | sed .. *)

(** What the programs of the build container answer: the two git
    commands, [docker] (whether it exits 0 for an argument vector: it
    fails, for instance, on an invalid image reference such as
    [repo:] with an empty tag) and the registry login pipeline (whether it
    exits 0 when the project's role may read the registry token). *)
Record checkout := {
  symbolic_ref_out : string;   (* empty on a detached HEAD *)
  name_rev_out : string;
  docker_ok : list string -> bool;
  ecr_login_ok : bool
}.

Definition git_output (g : checkout) (c : gitcmd) : string :=
  match c with
  | GitSymbolicRefShort => symbolic_ref_out g
  | GitNameRevBranch => name_rev_out g
  end.

Inductive cmd :=
| ExportVar (x y : string)               (* export x=${y} *)
| ExportSubst (x : string) (c : gitcmd)  (* export x="$(c)" *)
| ExportText (t : string)                (* export t ; t is template text *)
| IfEmpty (x : string) (body : cmd)      (* if [ "$x" = "" ] ; then body fi *)
| IfRegex (x pat : string) (body : cmd)  (* if [[ "$x" =~ pat ]] ; then body fi *)
| Run (ws : list word)                   (* a simple command that always exits 0: env *)
| Docker (ws : list word)                (* docker ws *)
| EcrLogin                               (* (aws ecr get-login-password |
                                             docker login ... $ECR_REPO_URI) *)
| PrintfTo (fmt : string) (ws : list word) (file : string)
                                         (* printf 'fmt' ws > file *)
| Other (text : string).                 (* a command that exits 0 with no effect on
                                            variables or files: echo, pwd, ls, cat *)

(** The state of the build container's shell: its variables, the files it
    wrote, and the argument vectors of the simple commands it ran. *)
Record state := {
  vars : env;
  files : gmap string string;
  log : list (list string)
}.

Definition set_vars (s : state) (e : env) : state :=
  {| vars := e; files := files s; log := log s |}.

(** Template text given to [export]: the shell splits it at blanks into
    arguments.  The fragment covers texts made of letters, digits, [_],
    [.], [-], [=] and blanks; other characters (quotes, [$], [;], ...)
    are outside it. *)
Definition blank (c : ascii) : bool := Ascii.eqb c " "%char || Ascii.eqb c (ascii_of_nat 9).
Definition export_char (c : ascii) : bool := is_alnum c || char_in "_.-=" c.

Fixpoint split_blanks (s : string) (cur : string) : list string :=
  match s with
  | EmptyString => [cur]
  | String c s' => if blank c then cur :: split_blanks s' ""
                   else split_blanks s' (cur +:+ String c EmptyString)
  end.

Definition shell_args (t : string) : list string :=
  List.filter (fun a => negb (String.eqb a "")) (split_blanks t "").

(** A shell name: letters, digits and [_], not starting with a digit. *)
Definition valid_name (x : string) : bool :=
  match x with
  | EmptyString => false
  | String c _ => negb (is_digit c) && str_forallb (fun d => is_alnum d || Ascii.eqb d "_"%char) x
  end.

(** Split [name=value] at the first [=]. *)
Fixpoint split_eq (s : string) : option (string * string) :=
  match s with
  | EmptyString => None
  | String c s' =>
      if Ascii.eqb c "="%char then Some ("", s')
      else match split_eq s' with
           | Some (n, v) => Some (String c n, v)
           | None => None
           end
  end.

(** The variables bash makes read-only in a non-interactive shell. *)
Definition readonly_var (x : string) : bool :=
  existsb (String.eqb x) ["BASHOPTS"; "BASH_VERSINFO"; "EUID"; "PPID"; "SHELLOPTS"; "UID"].

(** One argument of [export]: [name=value] assigns, a bare [name] only
    marks the variable exported; an invalid name, or an assignment to a
    read-only variable, makes [export] fail. *)
Definition export_arg (e : env) (a : string) : option env :=
  match split_eq a with
  | Some (n, v) => if valid_name n && negb (readonly_var n) then Some (<[n := v]> e) else None
  | None => if valid_name a then Some e else None
  end.

Fixpoint export_args (e : env) (args : list string) : option env :=
  match args with
  | [] => Some e
  | a :: rest => match export_arg e a with
                 | Some e' => export_args e' rest
                 | None => None
                 end
  end.

(** A pattern text spliced unquoted into [[[ "$x" =~ <pattern> ]]] that
    bash reads as one regex word with nothing expanded: non-empty, made of
    letters, digits and [_ . - / * ^ + ? , : @ % = [ ]], without ["]]"], and
    with [$] only as its last character.  Other texts are syntax errors
    (the empty text, a blank, [;], an unbalanced quote, ...) or lie outside
    the fragment (parentheses, [|], backslashes, [$] expansions, ...). *)
Definition regex_word_char (c : ascii) : bool := is_alnum c || char_in "_.-/*^+?,:@%=[]" c.

Fixpoint regex_word_body (p : string) : bool :=
  match p with
  | EmptyString => true
  | String c EmptyString => regex_word_char c || Ascii.eqb c "$"%char
  | String c p' => regex_word_char c && regex_word_body p'
  end.

Definition regex_word (p : string) : bool :=
  negb (String.eqb p "") && negb (str_contains "]]" p) && regex_word_body p.

Section Exec.
(** [regex_match s p]: the result of bash's [[[ s =~ p ]]] for the
    pattern text [p] (false also when [p] is not a valid regex). *)
Variable regex_match : string -> string -> bool.
Variable git : checkout.

Fixpoint exec (c : cmd) (s : state) : option state :=
  match c with
  | ExportVar x y => Some (set_vars s (<[x := var_value (vars s) y]> (vars s)))
  | ExportSubst x g => Some (set_vars s (<[x := git_output git g]> (vars s)))
  | ExportText t =>
      if str_forallb (fun c => export_char c || blank c) t then
        match export_args (vars s) (shell_args t) with
        | Some e => Some (set_vars s e)
        | None => None
        end
      else None
  | IfEmpty x body =>
      if String.eqb (var_value (vars s) x) "" then exec body s else Some s
  | IfRegex x pat body =>
      if regex_word pat then
        if regex_match (var_value (vars s) x) pat then exec body s else Some s
      else None
  | Run ws =>
      Some {| vars := vars s; files := files s; log := log s ++ [argv (vars s) ws] |}
  | Docker ws =>
      if docker_ok git (argv (vars s) ws)
      then Some {| vars := vars s; files := files s; log := log s ++ [argv (vars s) ws] |}
      else None
  | EcrLogin => if ecr_login_ok git then Some s else None
  | PrintfTo fmt ws file =>
      match printf fmt (argv (vars s) ws) with
      | Some out => Some {| vars := vars s; files := <[file := out]> (files s); log := log s |}
      | None => None
      end
  | Other _ => Some s
  end.

(** The commands of a phase run in one shell; the first failing command
    stops the phase. *)
Fixpoint exec_all (cs : list cmd) (s : state) : option state :=
  match cs with
  | [] => Some s
  | c :: cs' => match exec c s with
                | Some s' => exec_all cs' s'
                | None => None
                end
  end.

End Exec.

End BuildSpec.

(* ------------------------------------------------------------------ *)
(** ** A regex matcher for concrete runs

    The theorems about the build scripts hold for any [regex_match].  For
    concrete runs we use a matcher for the ERE subset made of literal
    characters, [.], [*], [^] and [$] (in the style of Pike's matcher),
    which covers the patterns of the repository's branch mapping
    ([master], [develop], [^release/.*]).  As with bash's [=~], the match
    is unanchored unless the pattern says otherwise. *)

Module Regex.

Fixpoint list_of_string (s : string) : list ascii :=
  match s with EmptyString => [] | String c s' => c :: list_of_string s' end.

Definition char_ok (p t : ascii) : bool := Ascii.eqb p "."%char || Ascii.eqb p t.

Fixpoint match_here (re text : list ascii) {struct re} : bool :=
  match re with
  | [] => true
  | c :: rest =>
      match rest with
      | s :: re' =>
          if Ascii.eqb s "*"%char then
            (fix star (t : list ascii) : bool :=
               match_here re' t
               || match t with
                  | x :: t' => char_ok c x && star t'
                  | [] => false
                  end) text
          else
            match text with
            | x :: t' => char_ok c x && match_here rest t'
            | [] => false
            end
      | [] =>
          if Ascii.eqb c "$"%char then
            match text with [] => true | _ => false end
          else
            match text with
            | x :: t' => char_ok c x && match_here rest t'
            | [] => false
            end
      end
  end.

Fixpoint match_anywhere (re text : list ascii) : bool :=
  match_here re text
  || match text with
     | _ :: t' => match_anywhere re t'
     | [] => false
     end.

Definition ere_match (s pat : string) : bool :=
  match list_of_string pat with
  | c :: re' => if Ascii.eqb c "^"%char then match_here re' (list_of_string s)
                else match_anywhere (c :: re') (list_of_string s)
  | [] => true
  end.

End Regex.

(* ------------------------------------------------------------------ *)
(** ** Deployment environment of a stack *)

(** Account, region and URL suffix the stack is deployed to. *)
Record aws_env := { account : string; region : string; urlSuffix : string }.

(** [Repository.repositoryUri]: [<account>.dkr.ecr.<region>.<suffix>/<name>]. *)
Definition repositoryUri (aws : aws_env) (repositoryName : string) : string :=
  account aws +:+ ".dkr.ecr." +:+ region aws +:+ "." +:+ urlSuffix aws +:+ "/" +:+ repositoryName.

(** AWS naming rules: ECR repository names are lower-case letters and
    digits separated by [.], [_], [-] or [/]; account ids are digits,
    region names lower-case letters, digits and [-], URL suffixes domain
    names. *)
Definition ecr_name_char (c : ascii) : bool := is_lower c || is_digit c || char_in "._-/" c.
Definition ecr_repository_name_ok (n : string) : bool := str_forallb ecr_name_char n.
Definition aws_env_ok (aws : aws_env) : bool :=
  str_forallb is_digit (account aws)
  && str_forallb (fun c => is_lower c || is_digit c || char_in "-" c) (region aws)
  && str_forallb (fun c => is_lower c || is_digit c || char_in ".-" c) (urlSuffix aws).

(** A CodeBuild project's container starts with the platform's variables
    [base] overridden by the project's [environmentVariables]. *)
Definition codebuild_start (base : gmap string string) (pvars : list (string * string))
  : BuildSpec.state :=
  {| BuildSpec.vars := fold_left (fun e '(k, v) => <[k := v]> e) pvars base;
     BuildSpec.files := ∅;
     BuildSpec.log := [] |}.

(* ------------------------------------------------------------------ *)
(** ** [ImageBuilderStack] (src/unnamed/part_003) *)

Module ImageBuilderStack.
Import Shell BuildSpec.

(** [branchMapping] as [Object.entries] lists it: pattern, tag name. *)
Record ImageBuilderStackProps := {
  appName : string;
  repoName : string;
  branchMapping : list (string * string);
  gitOwner : string;
  gitRepo : string
}.

(** The generated [if [[ "$CODEBUILD_GIT_BRANCH" =~ <pattern> ]] ; then
    export ENV_TAG=<tagName>; fi] of one mapping entry. *)
Definition mapping_cmd (entry : string * string) : cmd :=
  let '(branchPattern, tagName) := entry in
  IfRegex "CODEBUILD_GIT_BRANCH" branchPattern (ExportText ("ENV_TAG=" +:+ tagName)).

Definition pre_build (branchMapping : list (string * string)) : list cmd :=
  [ ExportVar "TAG" "CODEBUILD_RESOLVED_SOURCE_VERSION";
    ExportVar "BUILD_NUMBER" "CODEBUILD_BUILD_NUMBER";
    ExportSubst "CODEBUILD_GIT_BRANCH" GitSymbolicRefShort;
    IfEmpty "CODEBUILD_GIT_BRANCH" (ExportSubst "CODEBUILD_GIT_BRANCH" GitNameRevBranch) ]
  ++ map mapping_cmd branchMapping
  ++ [ Run [[Lit "env"]] ].

Definition build : list cmd :=
  [ Docker [[Lit "docker"]; [Lit "build"]; [Lit "--build-arg"]; [Lit "BUILD_NUMBER="; Var "BUILD_NUMBER"];
         [Lit "-t"]; [Var "IMAGE_NAME"; Lit ":"; Var "TAG"]; [Lit "."]];
    Docker [[Lit "docker"]; [Lit "tag"]; [Var "IMAGE_NAME"; Lit ":"; Var "TAG"];
         [Var "ECR_REPO_URI"; Lit ":"; Var "TAG"]];
    Docker [[Lit "docker"]; [Lit "tag"]; [Var "IMAGE_NAME"; Lit ":"; Var "TAG"];
         [Var "ECR_REPO_URI"; Lit ":"; Var "BUILD_NUMBER"]];
    Docker [[Lit "docker"]; [Lit "tag"]; [Var "IMAGE_NAME"; Lit ":"; Var "TAG"];
         [Var "ECR_REPO_URI"; Lit ":"; Var "ENV_TAG"]];
    EcrLogin;
    Docker [[Lit "docker"]; [Lit "push"]; [Var "ECR_REPO_URI"]] ].

(** What the constructor records for the build project; [ecrAccess]:
    whether it grants the project's role pull and push access to the
    repository ([ecrRepository.grantPullPush(project.role!)]). *)
Record ImageBuilder := {
  ecrRepositoryName : string;
  webhookBranchPatterns : list string;
  projectEnv : list (string * string);
  preBuild : list cmd;
  buildCmds : list cmd;
  ecrAccess : bool
}.

Definition ImageBuilderStack (aws : aws_env) (props : ImageBuilderStackProps) : ImageBuilder :=
  {| ecrRepositoryName := repoName props;
     webhookBranchPatterns := map fst (branchMapping props);
     projectEnv := [("IMAGE_NAME", repoName props);
                    ("ECR_REPO_URI", repositoryUri aws (repoName props))];
     preBuild := pre_build (branchMapping props);
     buildCmds := build;
     ecrAccess := true |}.

(** The container as the project's role sees it: the registry login
    fails when the role has no access to the repository. *)
Definition with_role (granted : bool) (git : checkout) : checkout :=
  {| symbolic_ref_out := symbolic_ref_out git; name_rev_out := name_rev_out git;
     docker_ok := docker_ok git; ecr_login_ok := granted && ecr_login_ok git |}.

(** A build of the project: pre_build, then build if pre_build succeeded. *)
Definition run_build (regex_match : string -> string -> bool) (git : checkout)
    (base : gmap string string) (p : ImageBuilder) : option state * option state :=
  let s0 := codebuild_start base (projectEnv p) in
  let pre := exec_all regex_match git (preBuild p) s0 in
  (pre, match pre with
        | Some s => exec_all regex_match (with_role (ecrAccess p) git) (buildCmds p) s
        | None => None
        end).

(** The first four pre_build commands, which resolve the branch. *)
Definition resolve_cmds : list cmd :=
  [ ExportVar "TAG" "CODEBUILD_RESOLVED_SOURCE_VERSION";
    ExportVar "BUILD_NUMBER" "CODEBUILD_BUILD_NUMBER";
    ExportSubst "CODEBUILD_GIT_BRANCH" GitSymbolicRefShort;
    IfEmpty "CODEBUILD_GIT_BRANCH" (ExportSubst "CODEBUILD_GIT_BRANCH" GitNameRevBranch) ].

(** The branch name the first four pre_build commands resolve. *)
Definition resolved_branch (git : checkout) : string :=
  if String.eqb (symbolic_ref_out git) "" then name_rev_out git else symbolic_ref_out git.

(** The mapping entries whose pattern the branch matches, in order. *)
Definition matching_entries (regex_match : string -> string -> bool) (branch : string)
    (m : list (string * string)) : list (string * string) :=
  List.filter (fun '(p, _) => regex_match branch p) m.

(** A tag name made of letters, digits, [_], [.] and [-] (the characters
    of a Docker tag): the unquoted [export ENV_TAG=<tagName>] of the
    template keeps such a value as one word. *)
Definition docker_tag_word (t : string) : bool :=
  str_forallb (fun c => is_alnum c || char_in "_.-" c) t.

End ImageBuilderStack.

(* ------------------------------------------------------------------ *)
(** ** The CDK constructs the stacks configure

    Only the properties the stacks set are recorded, with the library's
    defaults written out where a stack relies on them. *)

Module Cdk.
Import Shell BuildSpec.

Inductive SubnetType := PUBLIC | PRIVATE | ISOLATED.

Record VpcProps := { cidr : option string; maxAzs : nat; natGateways : nat }.

Inductive Protocol := TCP | UDP.

Record PortMapping := { containerPort : nat; protocol : Protocol }.

(** [ContainerImage.fromEcrRepository(repository, tag)]; the tag defaults
    to [latest]. *)
Record ContainerImage := { imageRepositoryName : string; imageTag : string }.

Definition fromEcrRepository (repositoryName : string) (tag : option string) : ContainerImage :=
  {| imageRepositoryName := repositoryName;
     imageTag := match tag with Some t => t | None => "latest" end |}.

(** [taskDef.addContainer(id, ..)]: the container's name is [id]. *)
Record ContainerDefinition := {
  containerName : string;
  image : ContainerImage;
  memoryLimitMiB : nat;
  cpu : nat;
  portMappings : list PortMapping
}.

Record ApplicationLoadBalancedFargateServiceProps := {
  serviceName : option string;
  publicLoadBalancer : bool;
  desiredCount : nat;
  listenerPort : nat;
  assignPublicIp : bool;
  taskSubnets : SubnetType
}.

(** [Duration.seconds(n)], kept in seconds. *)
Definition Duration_seconds (n : nat) : nat := n.

Inductive ScalingMetric := CpuUtilization | MemoryUtilization.

Record TargetTrackingPolicy := {
  policyId : string;
  metric : ScalingMetric;
  targetUtilizationPercent : nat;
  scaleInCooldown : nat;
  scaleOutCooldown : nat
}.

Record ScalableTaskCount := {
  minCapacity : nat;
  maxCapacity : nat;
  policies : list TargetTrackingPolicy
}.

(** [service.autoScaleTaskCount({ maxCapacity })]: the scalable target's
    [minCapacity] defaults to 1. *)
Definition autoScaleTaskCount (minCap : option nat) (maxCap : nat) : ScalableTaskCount :=
  {| minCapacity := match minCap with Some n => n | None => 1 end;
     maxCapacity := maxCap;
     policies := [] |}.

Definition scaleOn (m : ScalingMetric) (id : string) (target cin cout : nat)
    (s : ScalableTaskCount) : ScalableTaskCount :=
  {| minCapacity := minCapacity s;
     maxCapacity := maxCapacity s;
     policies := policies s ++ [{| policyId := id; metric := m;
                                  targetUtilizationPercent := target;
                                  scaleInCooldown := cin; scaleOutCooldown := cout |}] |}.

(** A CodeBuild project with an inline build spec; only the phase that
    the projects below use is recorded. *)
Record Project := {
  projectName : option string;
  projectEnv : list (string * string);
  postBuild : list cmd;
  artifactFiles : list string
}.

(** Pipeline actions.  [EcrSourceAction]'s tag defaults to [latest]. *)
Inductive Action :=
| EcrSourceAction (actionName repositoryName : string) (tag : option string)
| CodeBuildAction (actionName : string) (project : Project)
| EcsDeployAction (actionName serviceId imageFile : string).

Record StageProps := { stageName : string; actions : list Action }.

Record Pipeline := {
  pipelineName : option string;
  crossAccountKeys : bool;
  restartExecutionOnUpdate : bool;
  stages : list StageProps
}.

(** The name check of the [Pipeline] construct: a given name must match
    [/^[a-zA-Z0-9.@_-]{1,100}$/], otherwise the constructor throws. *)
Definition validPipelineName (n : string) : bool :=
  Nat.leb 1 (String.length n) && Nat.leb (String.length n) 100
  && str_forallb (fun c => is_alnum c || char_in ".@_-" c) n.

Definition pipelineNameOk (p : Pipeline) : bool :=
  match pipelineName p with Some n => validPipelineName n | None => true end.

(** An EventBridge event pattern: the event's [source] must be one of
    [patternSource], and for each detail key the event's detail must hold
    one of the listed values. *)
Record EventPattern := {
  patternSource : list string;
  patternDetail : list (string * list string)
}.

Record Event := { eventSource : string; eventDetail : gmap string string }.

Definition pattern_matches (p : EventPattern) (ev : Event) : bool :=
  existsb (String.eqb (eventSource ev)) (patternSource p)
  && forallb (fun '(k, vs) =>
                match eventDetail ev !! k with
                | Some v => existsb (String.eqb v) vs
                | None => false
                end) (patternDetail p).

Inductive RuleTarget := StartPipeline (pipelineId : string).

Record Rule := { eventPattern : EventPattern; targets : list RuleTarget }.

Definition fires (r : Rule) (ev : Event) : list RuleTarget :=
  if pattern_matches (eventPattern r) ev then targets r else [].

(** An environment stack as synthesized: the recorded configuration of
    its VPC, container, service, scaling, deploy pipeline and trigger. *)
Record EnvironmentStack := {
  stackTags : list (string * string);
  vpc : VpcProps;
  container : ContainerDefinition;
  service : ApplicationLoadBalancedFargateServiceProps;
  scaling : ScalableTaskCount;
  pipelineId : string;
  pipeline : Pipeline;
  trigger : Rule
}.

End Cdk.

(** The JSON double quote, as a one-character string. *)
Definition dq : string := String (ascii_of_nat 34) EmptyString.

(** The post_build [printf] format of the image-definitions builders:
    [[{"name":"<containerName>","imageUri":"%s"}]]. *)
Definition imagedefinitions_format (containerName : string) : string :=
  "[{" +:+ dq +:+ "name" +:+ dq +:+ ":" +:+ dq +:+ containerName +:+ dq +:+ ","
  +:+ dq +:+ "imageUri" +:+ dq +:+ ":" +:+ dq +:+ "%s" +:+ dq +:+ "}]".

(** The image-definitions builder project of a deploy pipeline: its
    post_build phase writes [imagedefinitions.json] with the image URI
    [$ECR_REPO_URI:<tag>]. *)
Definition imageDefinitionsBuilder (projectName : option string) (repositoryName uri : string)
    (containerName tag : string) : Cdk.Project :=
  {| Cdk.projectName := projectName;
     Cdk.projectEnv := [("IMAGE_NAME", repositoryName); ("ECR_REPO_URI", uri)];
     Cdk.postBuild :=
       [ BuildSpec.Other ("echo " +:+ dq +:+ "In Post-Build Stage" +:+ dq);
         BuildSpec.PrintfTo (imagedefinitions_format containerName)
           [[Shell.Var "ECR_REPO_URI"; Shell.Lit (":" +:+ tag)]] "imagedefinitions.json";
         BuildSpec.Other "pwd; ls -al; cat imagedefinitions.json" ];
     Cdk.artifactFiles := ["imagedefinitions.json"] |}.

(* ------------------------------------------------------------------ *)
(** ** [ECSEnvironmentStack] (src/unnamed/part_000) *)

Module ECSEnvironmentStack.
Import Cdk.

Record ECSEnvironmentStackProps := {
  appName : string;
  imageTag : string;
  ecrRepoName : string;
  vpcCidr : string
}.

(** [None] when the constructor throws on the pipeline name check.  The
    construct-time checks of the VPC (a valid CIDR block large enough for the
    subnets) are not modelled: [vpc] keeps the CIDR text as given. *)
Definition ECSEnvironmentStack (aws : aws_env) (props : ECSEnvironmentStackProps)
  : option EnvironmentStack :=
  let appName := appName props in
  let imageTag := imageTag props in
  let ecrRepoName := ecrRepoName props in
  let vpc := {| cidr := Some (vpcCidr props); maxAzs := 3; natGateways := 0 |} in
  let container :=
    {| containerName := appName +:+ "-" +:+ imageTag +:+ "-Container";
       image := fromEcrRepository ecrRepoName (Some imageTag);
       memoryLimitMiB := 512; cpu := 256;
       portMappings := [{| containerPort := 3000; protocol := TCP |}] |} in
  let serviceName := appName +:+ "-" +:+ imageTag +:+ "-Service" in
  let fargateService :=
    {| serviceName := Some serviceName; publicLoadBalancer := true; desiredCount := 1;
       listenerPort := 80; assignPublicIp := true; taskSubnets := PUBLIC |} in
  let scaling :=
    scaleOn MemoryUtilization (serviceName +:+ "MemoryScaling") 70
      (Duration_seconds 60) (Duration_seconds 60)
      (scaleOn CpuUtilization (serviceName +:+ "CpuScaling") 70
         (Duration_seconds 60) (Duration_seconds 60)
         (autoScaleTaskCount None 4)) in
  let ecrSourceAction := EcrSourceAction "EcrSource" ecrRepoName (Some imageTag) in
  let buildAction :=
    CodeBuildAction "Build"
      (imageDefinitionsBuilder (Some (appName +:+ "-" +:+ imageTag +:+ "-ImageDefinitionsBuilder"))
         ecrRepoName (repositoryUri aws ecrRepoName) (containerName container) imageTag) in
  let deployAction := EcsDeployAction "Deploy" serviceName "imagedefinitions.json" in
  let pipelineName := serviceName +:+ "-" +:+ imageTag +:+ "-DeployPipeline" in
  let pipeline :=
    {| Cdk.pipelineName := Some pipelineName; crossAccountKeys := false;
       restartExecutionOnUpdate := false;
       stages := [ {| stageName := "Source"; actions := [ecrSourceAction] |};
                   {| stageName := "Build"; actions := [buildAction] |};
                   {| stageName := "Deploy"; actions := [deployAction] |} ] |} in
  let eventRule :=
    {| eventPattern :=
         {| patternSource := ["aws.ecr"];
            patternDetail := [("action-type", ["PUSH"]); ("image-tag", [imageTag]);
                              ("repository-name", [ecrRepoName]); ("result", ["SUCCESS"])] |};
       targets := [StartPipeline pipelineName] |} in
  if pipelineNameOk pipeline then
    Some {| stackTags := [("project", appName); ("env", imageTag)];
            vpc := vpc; container := container; service := fargateService;
            scaling := scaling; pipelineId := pipelineName; pipeline := pipeline;
            trigger := eventRule |}
  else None.

End ECSEnvironmentStack.

(* ------------------------------------------------------------------ *)
(** ** [ApplicationStack] (src/unnamed/part_002) *)

Module ApplicationStack.
Import Cdk.

Record ApplicationStackProps := { branchName : string }.

Definition ApplicationStack (aws : aws_env) (props : ApplicationStackProps)
  : option EnvironmentStack :=
  let appName := "NestApp" in
  let repoName := "nest-app" in
  let vpc := {| cidr := None; maxAzs := 3; natGateways := 0 |} in
  let container :=
    {| containerName := appName +:+ "-Container";
       image := fromEcrRepository repoName None;
       memoryLimitMiB := 512; cpu := 256;
       portMappings := [{| containerPort := 3000; protocol := TCP |}] |} in
  let serviceName := appName +:+ "-Service" in
  let fargateService :=
    {| serviceName := Some serviceName; publicLoadBalancer := true; desiredCount := 1;
       listenerPort := 80; assignPublicIp := true; taskSubnets := PUBLIC |} in
  let scaling :=
    scaleOn MemoryUtilization (serviceName +:+ "MemoryScaling") 70
      (Duration_seconds 60) (Duration_seconds 60)
      (scaleOn CpuUtilization (serviceName +:+ "CpuScaling") 70
         (Duration_seconds 60) (Duration_seconds 60)
         (autoScaleTaskCount None 4)) in
  let ecrSourceAction := EcrSourceAction "EcrSource" repoName None in
  let buildAction :=
    CodeBuildAction "Build"
      (imageDefinitionsBuilder (Some (appName +:+ "-ImageDefinitionsBuilder"))
         repoName (repositoryUri aws repoName) (containerName container) "latest") in
  let deployAction := EcsDeployAction "Deploy" serviceName "imagedefinitions.json" in
  let pipelineName := serviceName +:+ "-DeployPipeline" in
  let pipeline :=
    {| Cdk.pipelineName := Some pipelineName; crossAccountKeys := false;
       restartExecutionOnUpdate := false;
       stages := [ {| stageName := "Source"; actions := [ecrSourceAction] |};
                   {| stageName := "Build"; actions := [buildAction] |};
                   {| stageName := "Deploy"; actions := [deployAction] |} ] |} in
  let eventRule :=
    {| eventPattern :=
         {| patternSource := ["aws.ecr"];
            patternDetail := [("action-type", ["PUSH"]); ("image-tag", ["latest"]);
                              ("repository-name", [repoName]); ("result", ["SUCCESS"])] |};
       targets := [StartPipeline pipelineName] |} in
  if pipelineNameOk pipeline then
    Some {| stackTags := [("project", appName)];
            vpc := vpc; container := container; service := fargateService;
            scaling := scaling; pipelineId := pipelineName; pipeline := pipeline;
            trigger := eventRule |}
  else None.

End ApplicationStack.

(* ------------------------------------------------------------------ *)
(** ** The other [ApplicationStack] (src/unnamed/part_001)

    Its repository has no name of its own: CloudFormation generates one
    at deployment, the argument [ecrRepositoryName]. *)

Module ApplicationStackPart001.
Import Cdk.

Definition ApplicationStack (aws : aws_env) (ecrRepositoryName : string)
    (props : ApplicationStack.ApplicationStackProps) : option EnvironmentStack :=
  let vpc := {| cidr := None; maxAzs := 3; natGateways := 0 |} in
  let container :=
    {| containerName := "ECSContainer";
       image := fromEcrRepository ecrRepositoryName None;
       memoryLimitMiB := 512; cpu := 256;
       portMappings := [{| containerPort := 3000; protocol := TCP |}] |} in
  let serviceName := "ECSService" in
  let fargateService :=
    {| serviceName := None; publicLoadBalancer := true; desiredCount := 1;
       listenerPort := 80; assignPublicIp := true; taskSubnets := PUBLIC |} in
  let scaling :=
    scaleOn MemoryUtilization "MemScaling" 70 (Duration_seconds 60) (Duration_seconds 60)
      (scaleOn CpuUtilization "CpuScaling" 70 (Duration_seconds 60) (Duration_seconds 60)
         (autoScaleTaskCount None 4)) in
  let ecrSourceAction := EcrSourceAction "EcrSource" ecrRepositoryName None in
  let buildAction :=
    CodeBuildAction "Build"
      (imageDefinitionsBuilder None ecrRepositoryName (repositoryUri aws ecrRepositoryName)
         (containerName container) "latest") in
  let deployAction := EcsDeployAction "Deploy" serviceName "imagedefinitions.json" in
  let pipelineId := "DeployImgOnECS" in
  let pipeline :=
    {| Cdk.pipelineName := None; crossAccountKeys := false;
       restartExecutionOnUpdate := false;
       stages := [ {| stageName := "Source"; actions := [ecrSourceAction] |};
                   {| stageName := "Build"; actions := [buildAction] |};
                   {| stageName := "Deploy"; actions := [deployAction] |} ] |} in
  let eventRule :=
    {| eventPattern :=
         {| patternSource := ["aws.ecr"];
            patternDetail := [("action-type", ["PUSH"]); ("image-tag", ["latest"]);
                              ("repository-name", [ecrRepositoryName]); ("result", ["SUCCESS"])] |};
       targets := [StartPipeline pipelineId] |} in
  if pipelineNameOk pipeline then
    Some {| stackTags := [];
            vpc := vpc; container := container; service := fargateService;
            scaling := scaling; pipelineId := pipelineId; pipeline := pipeline;
            trigger := eventRule |}
  else None.

End ApplicationStackPart001.

(* ------------------------------------------------------------------ *)
(** ** The image build project of both [ApplicationStack] versions

    src/unnamed/part_002 (lines 64-113) and src/unnamed/part_001 (lines
    48-96) declare the same GitHub-triggered project: its webhook filters
    pushes on [branchName], and its build tags the image [latest]. *)

Module ApplicationStackBuild.
Import Shell BuildSpec ImageBuilderStack.

Definition pre_build : list cmd :=
  [ ExportVar "TAG" "CODEBUILD_RESOLVED_SOURCE_VERSION";
    ExportVar "BUILD_NUMBER" "CODEBUILD_BUILD_NUMBER";
    Run [[Lit "env"]] ].

Definition build : list cmd :=
  [ Docker [[Lit "docker"]; [Lit "build"]; [Lit "--build-arg"]; [Lit "BUILD_NUMBER="; Var "BUILD_NUMBER"];
         [Lit "-t"]; [Var "IMAGE_NAME"; Lit ":"; Var "TAG"]; [Lit "."]];
    Docker [[Lit "docker"]; [Lit "tag"]; [Var "IMAGE_NAME"; Lit ":"; Var "TAG"];
         [Var "ECR_REPO_URI"; Lit ":"; Var "TAG"]];
    Docker [[Lit "docker"]; [Lit "tag"]; [Var "IMAGE_NAME"; Lit ":"; Var "TAG"];
         [Var "ECR_REPO_URI"; Lit ":"; Var "BUILD_NUMBER"]];
    Docker [[Lit "docker"]; [Lit "tag"]; [Var "IMAGE_NAME"; Lit ":"; Var "TAG"];
         [Var "ECR_REPO_URI"; Lit ":latest"]];
    EcrLogin;
    Docker [[Lit "docker"]; [Lit "push"]; [Var "ECR_REPO_URI"]] ].

(** [granted]: whether the stack grants the project's role access to the
    repository (part_001 does, line 98; part_002 does not). *)
Definition ImgBuilder (aws : aws_env) (repositoryName branchName : string) (granted : bool)
  : ImageBuilder :=
  {| ecrRepositoryName := repositoryName;
     webhookBranchPatterns := [branchName];
     projectEnv := [("IMAGE_NAME", repositoryName);
                    ("ECR_REPO_URI", repositoryUri aws repositoryName)];
     preBuild := pre_build;
     buildCmds := build;
     ecrAccess := granted |}.

End ApplicationStackBuild.

(** Running the image-definitions builder of a deploy pipeline.  The
    project has no source checkout and its script runs no git, no docker
    and no regex test, so the container's answers and the matcher play
    no part. *)
Definition run_imagedefinitions (base : gmap string string) (p : Cdk.Project)
  : option BuildSpec.state :=
  BuildSpec.exec_all (fun _ _ => false)
    {| BuildSpec.symbolic_ref_out := ""; BuildSpec.name_rev_out := "";
       BuildSpec.docker_ok := fun _ => false; BuildSpec.ecr_login_ok := false |}
    (Cdk.postBuild p) (codebuild_start base (Cdk.projectEnv p)).

(** The project of a pipeline's Build stage. *)
Definition build_project (p : Cdk.Pipeline) : option Cdk.Project :=
  match List.filter (fun st => String.eqb (Cdk.stageName st) "Build") (Cdk.stages p) with
  | st :: _ =>
      match Cdk.actions st with
      | Cdk.CodeBuildAction _ pr :: _ => Some pr
      | _ => None
      end
  | [] => None
  end.

(** The manifest shape the deploy action reads:
    [[{"name":"<n>","imageUri":"<u>"}, ...]]. *)
Definition imagedefinitions_json (entries : list (string * string)) : string :=
  "[" +:+ String.concat ","
    (map (fun '(n, u) =>
            "{" +:+ dq +:+ "name" +:+ dq +:+ ":" +:+ dq +:+ n +:+ dq +:+ ","
            +:+ dq +:+ "imageUri" +:+ dq +:+ ":" +:+ dq +:+ u +:+ dq +:+ "}") entries)
  +:+ "]".

(* ------------------------------------------------------------------ *)
(** ** [PipelineStack] and [PipelineAppStage] (src/lib) *)

Module PipelineStack.

(** [new PipelineAppStage(scope, id, { branchName })]: a stage holding one
    [ApplicationStack] with id [AppStack] for that branch. *)
Record PipelineAppStage := {
  stageId : string;
  stageTags : list (string * string);
  appStackId : string;
  appStackProps : ApplicationStack.ApplicationStackProps
}.

Definition mkPipelineAppStage (id branchName : string) : PipelineAppStage :=
  {| stageId := id; stageTags := []; appStackId := "AppStack";
     appStackProps := {| ApplicationStack.branchName := branchName |} |}.

(** [Tags.of(stage).add(k, v)]. *)
Definition addTag (k v : string) (s : PipelineAppStage) : PipelineAppStage :=
  {| stageId := stageId s; stageTags := stageTags s ++ [(k, v)];
     appStackId := appStackId s; appStackProps := appStackProps s |}.

(** A [CodePipeline] of the pipelines module: the synth step's GitHub
    source (repository, branch), its commands, and the added stages. *)
Record CodePipeline := {
  cpPipelineName : option string;
  synthInput : string * string;
  synthCommands : list string;
  appStages : list PipelineAppStage
}.

Definition addStage (st : PipelineAppStage) (p : CodePipeline) : CodePipeline :=
  {| cpPipelineName := cpPipelineName p; synthInput := synthInput p;
     synthCommands := synthCommands p; appStages := appStages p ++ [st] |}.

Definition synth (gitOwner gitRepo : string) (name : option string) : CodePipeline :=
  {| cpPipelineName := name;
     synthInput := (gitOwner +:+ "/" +:+ gitRepo, "master");
     synthCommands := ["npm ci"; "npm run build"; "npx cdk synth"];
     appStages := [] |}.

(** src/lib/pipeline-stack.ts, first class (lines 1-39). *)
Definition PipelineStack_lines1_39 : CodePipeline :=
  let gitOwner := "shustariov-andrey" in
  let gitRepo := "cdk-nest-docker" in
  let pipeline := synth gitOwner gitRepo (Some "StackPipeline") in
  let prod := addTag "environment" "prod" (mkPipelineAppStage "NestAppProd" "master") in
  let pipeline := addStage prod pipeline in
  let stg := addTag "environment" "staging" (mkPipelineAppStage "NestAppStaging" "develop") in
  addStage stg pipeline.

(** src/lib/pipeline-stack.ts, second class (lines 41-86). *)
Definition PipelineStack_lines41_86 : CodePipeline :=
  let gitOwner := "shustariov-andrey" in
  let gitRepo := "cdk-nest-docker" in
  let pipeline := synth gitOwner gitRepo None in
  let prod := addTag "environment" "prod" (mkPipelineAppStage "Prod" "master") in
  let pipeline := addStage prod pipeline in
  let stg := addTag "environment" "staging" (mkPipelineAppStage "Stg" "develop") in
  addStage stg pipeline.

(** src/unnamed/part_004: the [PipelineStack] that adds a single stage. *)
Definition PipelineStack_part004 : CodePipeline :=
  let gitOwner := "shustariov-andrey" in
  let gitRepo := "cdk-nest-docker" in
  let pipeline := synth gitOwner gitRepo (Some "StackPipeline") in
  addStage (mkPipelineAppStage "Prod" "master") pipeline.

(** Stage id, source branch and tags of each application stage. *)
Definition stage_summary (p : CodePipeline) : list (string * string * list (string * string)) :=
  map (fun s => (stageId s, ApplicationStack.branchName (appStackProps s), stageTags s)) (appStages p).

End PipelineStack.

(* ------------------------------------------------------------------ *)
(** ** The test (src/test/aws-nest-docker.test.ts) *)

Module EmptyStackTest.

(** A CloudFormation template: its scalar sections, and its keyed
    sections as (key, JSON text of the entry) lists, one entry per key;
    [OtherSections] holds the top-level keys of no known section with
    their JSON text.  An absent keyed section is an empty list. *)
Record Template := {
  AWSTemplateFormatVersion : option string;
  Description : option string;
  Transform : option string;
  Metadata : list (string * string);
  Parameters : list (string * string);
  Mappings : list (string * string);
  Conditions : list (string * string);
  Resources : list (string * string);
  Outputs : list (string * string);
  OtherSections : list (string * string)
}.

Definition emptyTemplate : Template :=
  {| AWSTemplateFormatVersion := None; Description := None; Transform := None;
     Metadata := []; Parameters := []; Mappings := []; Conditions := [];
     Resources := []; Outputs := []; OtherSections := [] |}.

(** [MatchStyle.EXACT] and [MatchStyle.SUPERSET] of [@aws-cdk/assert]. *)
Inductive MatchStyle := EXACT | SUPERSET.

Definition entries_subset (a b : list (string * string)) : bool :=
  forallb (fun x => bool_decide (x ∈ b)) a.

(** A keyed section without differences: the same entries. *)
Definition same_entries (a b : list (string * string)) : bool :=
  entries_subset a b && entries_subset b a.

Definition sections (t : Template) : list (list (string * string)) :=
  [Metadata t; Parameters t; Mappings t; Conditions t; Resources t; Outputs t; OtherSections t].

Definition scalars (t : Template) : list (option string) :=
  [AWSTemplateFormatVersion t; Description t; Transform t].

(** EXACT: the template diff of the two templates counts no difference
    in any section; SUPERSET: every entry of the expected template is in
    the actual one. *)
Definition matchTemplate (expected : Template) (style : MatchStyle) (actual : Template) : bool :=
  match style with
  | EXACT =>
      bool_decide (scalars actual = scalars expected)
      && forallb (fun '(a, e) => same_entries a e) (combine (sections actual) (sections expected))
  | SUPERSET =>
      forallb (fun '(x, y) => match y with Some v => bool_decide (x = Some v) | None => true end)
        (combine (scalars actual) (scalars expected))
      && forallb (fun '(a, e) => entries_subset e a) (combine (sections actual) (sections expected))
  end.

(** [expectCDK(stack).to(matchTemplate({ "Resources": {} }, MatchStyle.EXACT))]
    on the synthesized template of the tested stack. *)
Definition empty_stack_test (synthesized : Template) : bool :=
  matchTemplate emptyTemplate EXACT synthesized.

End EmptyStackTest.

(* ------------------------------------------------------------------ *)
(** ** The repository's environment stacks *)

(** An environment stack of the repository with its constructor's
    arguments. *)
Inductive EnvStackInstance :=
| ECSEnv (aws : aws_env) (props : ECSEnvironmentStack.ECSEnvironmentStackProps)
| App (aws : aws_env) (props : ApplicationStack.ApplicationStackProps)
| AppPart001 (aws : aws_env) (ecrRepositoryName : string)
             (props : ApplicationStack.ApplicationStackProps).

Definition synth_env_stack (i : EnvStackInstance) : option Cdk.EnvironmentStack :=
  match i with
  | ECSEnv aws props => ECSEnvironmentStack.ECSEnvironmentStack aws props
  | App aws props => ApplicationStack.ApplicationStack aws props
  | AppPart001 aws n props => ApplicationStackPart001.ApplicationStack aws n props
  end.

Definition instance_aws (i : EnvStackInstance) : aws_env :=
  match i with ECSEnv aws _ | App aws _ | AppPart001 aws _ _ => aws end.

(** The image build project an application stack declares beside its
    deploy pipeline ([ECSEnvironmentStack] declares none). *)
Definition app_image_builder (i : EnvStackInstance) : option ImageBuilderStack.ImageBuilder :=
  match i with
  | ECSEnv _ _ => None
  | App aws props =>
      Some (ApplicationStackBuild.ImgBuilder aws "nest-app" (ApplicationStack.branchName props) false)
  | AppPart001 aws n props =>
      Some (ApplicationStackBuild.ImgBuilder aws n (ApplicationStack.branchName props) true)
  end.

(* ------------------------------------------------------------------ *)
(** ** The app (src/bin/aws-nest-docker.ts)

    Two [ECSEnvironmentStack]s, [prod] and [dev], deploying from the
    repository [nest-cluster-repo] that the [ImageBuilderStack] fills. *)

Module Bin.

Definition AwsNestDockerStack_props : ECSEnvironmentStack.ECSEnvironmentStackProps :=
  {| ECSEnvironmentStack.appName := "NestApp"; ECSEnvironmentStack.imageTag := "prod";
     ECSEnvironmentStack.vpcCidr := "10.0.0.0/16";
     ECSEnvironmentStack.ecrRepoName := "nest-cluster-repo" |}.

Definition AwsNestDockerDevStack_props : ECSEnvironmentStack.ECSEnvironmentStackProps :=
  {| ECSEnvironmentStack.appName := "NestApp"; ECSEnvironmentStack.imageTag := "dev";
     ECSEnvironmentStack.vpcCidr := "10.1.0.0/16";
     ECSEnvironmentStack.ecrRepoName := "nest-cluster-repo" |}.

Definition ImageBuilderStack_props : ImageBuilderStack.ImageBuilderStackProps :=
  {| ImageBuilderStack.appName := "NestApp"; ImageBuilderStack.repoName := "nest-cluster-repo";
     ImageBuilderStack.gitOwner := "shustariov-andrey";
     ImageBuilderStack.gitRepo := "nest-docker-boilerplate";
     ImageBuilderStack.branchMapping :=
       [("master", "prod"); ("develop", "dev"); ("^release/.*", "uat")] |}.

End Bin.

(** The provider of a pipeline action. *)
Definition action_kind (a : Cdk.Action) : string :=
  match a with
  | Cdk.EcrSourceAction _ _ _ => "ECR"
  | Cdk.CodeBuildAction _ _ => "CodeBuild"
  | Cdk.EcsDeployAction _ _ _ => "ECS"
  end.

(** Each stage's name with the providers of its actions, in order. *)
Definition pipeline_shape (p : Cdk.Pipeline) : list (string * list string) :=
  map (fun st => (Cdk.stageName st, map action_kind (Cdk.actions st))) (Cdk.stages p).

(** An ECR push event with the given detail fields. *)
Definition ecr_event (action tag repo result : string) : Cdk.Event :=
  {| Cdk.eventSource := "aws.ecr";
     Cdk.eventDetail := <["action-type" := action]> (<["image-tag" := tag]>
                          (<["repository-name" := repo]> (<["result" := result]> ∅))) |}.

(** Example inputs for concrete runs. *)
Definition example_aws : aws_env :=
  {| account := "123456789012"; region := "eu-west-1"; urlSuffix := "amazonaws.com" |}.

Definition example_ecs_props : ECSEnvironmentStack.ECSEnvironmentStackProps :=
  {| ECSEnvironmentStack.appName := "NestApp"; ECSEnvironmentStack.imageTag := "prod";
     ECSEnvironmentStack.ecrRepoName := "nest-app"; ECSEnvironmentStack.vpcCidr := "10.0.0.0/16" |}.


(** A docker that rejects a [docker tag] whose target has an empty tag
    (ends in [:]) and accepts the other commands. *)
Definition example_docker (a : list string) : bool :=
  match a with
  | ["docker"; "tag"; _; dst] => negb (String.eqb (substring (String.length dst - 1) 1 dst) ":")
  | _ => true
  end.

Definition example_checkout (branch : string) : BuildSpec.checkout :=
  {| BuildSpec.symbolic_ref_out := branch; BuildSpec.name_rev_out := "";
     BuildSpec.docker_ok := example_docker; BuildSpec.ecr_login_ok := true |}.

(** Platform variables of a CodeBuild container: commit id and build number. *)
Definition example_base : gmap string string :=
  <["CODEBUILD_RESOLVED_SOURCE_VERSION" := "0a1b2c3"]> (<["CODEBUILD_BUILD_NUMBER" := "17"]> ∅).

(** A shell whose [CODEBUILD_GIT_BRANCH] is [branch]. *)
Definition example_state (branch : string) : BuildSpec.state :=
  {| BuildSpec.vars := <["CODEBUILD_GIT_BRANCH" := branch]> ∅;
     BuildSpec.files := ∅; BuildSpec.log := [] |}.

(* ================================================================== *)
(** * Proofs *)

(** stdpp makes [String.append] opaque to [simpl]; the proofs below
    compute with it. *)
Local Arguments String.append : simpl nomatch.

(* ------------------------------------------------------------------ *)
(** ** Strings, expansion and printf *)

Lemma str_app_assoc (a b c : string) : (a +:+ b) +:+ c = a +:+ (b +:+ c).
Proof. induction a as [|x a IH]; cbn; [reflexivity | now f_equal]. Qed.

Lemma str_app_nil_r (a : string) : a +:+ "" = a.
Proof. induction a as [|x a IH]; cbn; [reflexivity | now f_equal]. Qed.

Lemma str_forallb_app (f : ascii -> bool) (a b : string) :
  str_forallb f (a +:+ b) = str_forallb f a && str_forallb f b.
Proof.
  induction a as [|x a IH]; simpl; [reflexivity|].
  rewrite IH. now destruct (f x).
Qed.

Lemma str_forallb_impl (f g : ascii -> bool) (s : string) :
  (forall c, f c = true -> g c = true) -> str_forallb f s = true -> str_forallb g s = true.
Proof.
  intros Hfg. induction s as [|x s IH]; simpl; [reflexivity|].
  intros H. apply andb_true_iff in H as [H1 H2].
  rewrite (Hfg _ H1). simpl. now apply IH.
Qed.

Module ShellFacts.
Import Shell.

Lemma lit_toks_app (a b : string) : lit_toks (a +:+ b) = lit_toks a ++ lit_toks b.
Proof. induction a as [|x a IH]; simpl; [reflexivity | now rewrite IH]. Qed.

Lemma exp_toks_no_ifs (u : string) :
  str_forallb (fun c => negb (ifs_char c)) u = true -> exp_toks u = lit_toks u.
Proof.
  induction u as [|x u IH]; simpl; [reflexivity|].
  intros H. apply andb_true_iff in H as [H1 H2].
  destruct (ifs_char x); [discriminate|]. now rewrite IH.
Qed.

Lemma split_toks_lit (s cur : string) : split_toks (lit_toks s) cur = [cur +:+ s].
Proof.
  revert cur. induction s as [|x s IH]; intros cur; simpl.
  - now rewrite str_app_nil_r.
  - rewrite IH, str_app_assoc. reflexivity.
Qed.

Lemma fields_lit (s : string) : s <> "" -> fields (lit_toks s) = [s].
Proof.
  intros Hs. unfold fields. rewrite split_toks_lit. simpl.
  destruct (String.eqb s "") eqn:E; [apply String.eqb_eq in E; contradiction|].
  reflexivity.
Qed.



Lemma printf_pass_safe (s rest : string) (args : list string) :
  str_forallb fmt_safe s = true ->
  printf_pass (s +:+ rest) args =
  match printf_pass rest args with
  | Some (o, r, u) => Some (s +:+ o, r, u)
  | None => None
  end.
Proof.
  induction s as [|x s IH]; intros H; simpl.
  - destruct (printf_pass rest args) as [[[o r] u]|]; reflexivity.
  - apply andb_true_iff in H as [H1 H2]. unfold fmt_safe in H1.
    apply andb_true_iff in H1 as [Hp Hb].
    apply negb_true_iff in Hp, Hb. rewrite Hp, Hb.
    rewrite (IH H2).
    destruct (printf_pass rest args) as [[[o r] u]|]; reflexivity.
Qed.

End ShellFacts.

(* ------------------------------------------------------------------ *)
(** ** Running the build specs *)

Module BuildFacts.
Import Shell BuildSpec ImageBuilderStack.

Lemma exec_all_app (m : string -> string -> bool) (g : checkout) (l1 l2 : list cmd) (s : state) :
  exec_all m g (l1 ++ l2) s =
  match exec_all m g l1 s with Some s' => exec_all m g l2 s' | None => None end.
Proof.
  revert s. induction l1 as [|c l1 IH]; intros s; simpl; [reflexivity|].
  destruct (exec m g c s); [apply IH | reflexivity].
Qed.

Lemma split_blanks_noblank (s cur : string) :
  str_forallb (fun c => negb (blank c)) s = true -> split_blanks s cur = [cur +:+ s].
Proof.
  revert cur. induction s as [|x s IH]; intros cur H; simpl.
  - now rewrite str_app_nil_r.
  - simpl in H. apply andb_true_iff in H as [H1 H2].
    apply negb_true_iff in H1. rewrite H1, IH by exact H2.
    now rewrite str_app_assoc.
Qed.

Lemma docker_tag_char_export (c : ascii) :
  is_alnum c || char_in "_.-" c = true -> export_char c || blank c = true.
Proof.
  intros H. unfold export_char. apply orb_true_iff. left.
  apply orb_true_iff in H as [H|H]; apply orb_true_iff; [now left|right].
  unfold char_in in *. simpl in *.
  repeat (apply orb_true_iff in H as [H|H]; [rewrite H; now rewrite ?orb_true_r|]).
  discriminate.
Qed.

Lemma docker_tag_char_noblank (c : ascii) :
  is_alnum c || char_in "_.-" c = true -> negb (blank c) = true.
Proof.
  intros H. destruct (blank c) eqn:Hb; [|reflexivity]. exfalso.
  unfold blank in Hb. apply orb_true_iff in Hb as [Hb|Hb];
    apply Ascii.eqb_eq in Hb; subst c; vm_compute in H; discriminate.
Qed.

(** [export ENV_TAG=<t>] with a Docker-tag word [t] sets [ENV_TAG] to [t]. *)
Lemma exec_export_env_tag (m : string -> string -> bool) (g : checkout) (t : string) (s : state) :
  docker_tag_word t = true ->
  exec m g (ExportText ("ENV_TAG=" +:+ t)) s = Some (set_vars s (<["ENV_TAG" := t]> (vars s))).
Proof.
  intros Ht. simpl.
  rewrite (str_forallb_impl _ _ t docker_tag_char_export Ht).
  unfold shell_args.
  rewrite split_blanks_noblank.
  2: { simpl. exact (str_forallb_impl _ _ t docker_tag_char_noblank Ht). }
  simpl. reflexivity.
Qed.

Lemma var_value_insert_eq (e : gmap string string) (x v : string) :
  var_value (<[x := v]> e) x = v.
Proof. unfold var_value. now rewrite lookup_insert_eq. Qed.

Lemma exec_mapping_cmd (m : string -> string -> bool) (g : checkout) (p t : string) (s : state) :
  exec m g (mapping_cmd (p, t)) s =
  if regex_word p then
    if m (var_value (vars s) "CODEBUILD_GIT_BRANCH") p
    then exec m g (ExportText ("ENV_TAG=" +:+ t)) s else Some s
  else None.
Proof. reflexivity. Qed.

Lemma pre_build_split (ms : list (string * string)) :
  pre_build ms = resolve_cmds ++ map mapping_cmd ms ++ [Run [[Lit "env"]]].
Proof. reflexivity. Qed.

(** The first four pre_build commands set [CODEBUILD_GIT_BRANCH] to the
    resolved branch and leave [ENV_TAG] alone. *)
Lemma resolve_cmds_run (m : string -> string -> bool) (g : checkout) (s : state) :
  exists s', exec_all m g resolve_cmds s = Some s'
    /\ vars s' !! "CODEBUILD_GIT_BRANCH" = Some (resolved_branch g)
    /\ vars s' !! "ENV_TAG" = vars s !! "ENV_TAG".
Proof.
  unfold resolve_cmds, resolved_branch. simpl.
  rewrite var_value_insert_eq.
  destruct (String.eqb (symbolic_ref_out g) "") eqn:E; simpl;
    eexists; (split; [reflexivity|]); simpl.
  - rewrite lookup_insert_eq, !lookup_insert_ne by discriminate. auto.
  - rewrite lookup_insert_eq, !lookup_insert_ne by discriminate. auto.
Qed.

Lemma matching_entries_cons (m : string -> string -> bool) (b p t : string)
    (ms : list (string * string)) :
  matching_entries m b ((p, t) :: ms) =
  if m b p then (p, t) :: matching_entries m b ms else matching_entries m b ms.
Proof. reflexivity. Qed.

(** The mapping's [if]s: [ENV_TAG] ends up as the tag of the last
    matching entry, or as it was when none matches. *)
Lemma mapping_run (m : string -> string -> bool) (g : checkout) (b : string)
    (ms : list (string * string)) (s : state) :
  forallb regex_word (map fst ms) = true ->
  vars s !! "CODEBUILD_GIT_BRANCH" = Some b ->
  (forall p t, In (p, t) (matching_entries m b ms) -> docker_tag_word t = true) ->
  exists s', exec_all m g (map mapping_cmd ms) s = Some s'
    /\ vars s' !! "CODEBUILD_GIT_BRANCH" = Some b
    /\ vars s' !! "ENV_TAG" =
       match rev (matching_entries m b ms) with
       | (_, t) :: _ => Some t
       | [] => vars s !! "ENV_TAG"
       end.
Proof.
  revert s. induction ms as [|[p t] ms IH]; intros s Hw Hb Hplain.
  - exists s. simpl. auto.
  - cbn [map exec_all]. rewrite exec_mapping_cmd.
    cbn [map forallb fst] in Hw. apply andb_true_iff in Hw as [Hp Hw]. rewrite Hp.
    unfold var_value at 1. rewrite Hb.
    simpl in Hplain.
    destruct (m b p) eqn:Em.
    + rewrite exec_export_env_tag by (apply (Hplain p t); now left).
      destruct (IH (set_vars s (<["ENV_TAG" := t]> (vars s))) Hw) as (s' & E & Hb' & Ht').
      { simpl. rewrite lookup_insert_ne by discriminate. exact Hb. }
      { intros p' t' Hin. apply (Hplain p' t'). now right. }
      exists s'. split; [exact E|]. split; [exact Hb'|].
      rewrite Ht', matching_entries_cons, Em. cbn [rev].
      destruct (rev (matching_entries m b ms)) as [|[p0 t0] r]; simpl;
        [now rewrite lookup_insert_eq | reflexivity].
    + rewrite matching_entries_cons, Em in *.
      destruct (IH s Hw Hb Hplain) as (s' & E & Hb' & Ht').
      exists s'. auto.
Qed.

(** pre_build as a whole. *)
Lemma pre_build_run (m : string -> string -> bool) (g : checkout) (ms : list (string * string))
    (s : state) :
  forallb regex_word (map fst ms) = true ->
  (forall p t, In (p, t) (matching_entries m (resolved_branch g) ms) -> docker_tag_word t = true) ->
  exists s', exec_all m g (pre_build ms) s = Some s'
    /\ vars s' !! "ENV_TAG" =
       match rev (matching_entries m (resolved_branch g) ms) with
       | (_, t) :: _ => Some t
       | [] => vars s !! "ENV_TAG"
       end.
Proof.
  intros Hw Hplain.
  rewrite pre_build_split, exec_all_app.
  destruct (resolve_cmds_run m g s) as (s1 & E1 & Hb1 & Ht1). rewrite E1.
  rewrite exec_all_app.
  destruct (mapping_run m g _ ms s1 Hw Hb1 Hplain) as (s2 & E2 & _ & Ht2). rewrite E2.
  simpl. eexists. split; [reflexivity|]. simpl.
  rewrite Ht2, Ht1. reflexivity.
Qed.

Lemma codebuild_start_env_tag (base : gmap string string) (aws : aws_env)
    (props : ImageBuilderStackProps) :
  vars (codebuild_start base (projectEnv (ImageBuilderStack aws props))) !! "ENV_TAG"
  = base !! "ENV_TAG".
Proof.
  simpl. rewrite !lookup_insert_ne by discriminate. reflexivity.
Qed.

End BuildFacts.

Module BuildFacts2.
Import Shell BuildSpec ImageBuilderStack ShellFacts BuildFacts.



End BuildFacts2.

Import Shell BuildSpec ImageBuilderStack.







Module ManifestFacts.
Import Shell ShellFacts.

Lemma printf_imagedefinitions (cname a : string) :
  str_forallb fmt_safe cname = true ->
  printf (imagedefinitions_format cname) [a] = Some (imagedefinitions_json [(cname, a)]).
Proof.
  intros Hc. unfold printf, imagedefinitions_format, imagedefinitions_json, dq. simpl.
  rewrite printf_pass_safe by exact Hc. simpl.
  repeat (rewrite str_app_assoc; simpl). reflexivity.
Qed.

Lemma imagedefinitions_builder_run (base : gmap string string) (pn : option string)
    (repo uri cname tag : string) :
  str_forallb (fun c => negb (ifs_char c)) uri = true ->
  str_forallb fmt_safe cname = true ->
  exists s, run_imagedefinitions base (imageDefinitionsBuilder pn repo uri cname tag) = Some s
    /\ BuildSpec.files s !! "imagedefinitions.json"
       = Some (imagedefinitions_json [(cname, uri +:+ ":" +:+ tag)]).
Proof.
  intros Hu Hc.
  assert (Ha : argv (BuildSpec.vars (codebuild_start base [("IMAGE_NAME", repo); ("ECR_REPO_URI", uri)]))
                 [[Var "ECR_REPO_URI"; Lit (":" +:+ tag)]] = [uri +:+ ":" +:+ tag]).
  { unfold argv, expand_word. cbn [map concat part_toks codebuild_start BuildSpec.vars fold_left].
    unfold var_value. rewrite lookup_insert_eq.
    rewrite exp_toks_no_ifs by exact Hu. rewrite !app_nil_r, <- lit_toks_app.
    rewrite fields_lit; [reflexivity|]. destruct uri; discriminate. }
  unfold run_imagedefinitions, imageDefinitionsBuilder. cbn [Cdk.postBuild Cdk.projectEnv].
  cbn [BuildSpec.exec_all BuildSpec.exec].
  rewrite Ha, printf_imagedefinitions by exact Hc.
  eexists. split; [reflexivity|]. simpl. apply lookup_insert_eq.
Qed.

End ManifestFacts.

Lemma pipeline_char_fmt_safe (c : ascii) :
  is_alnum c || char_in ".@_-" c = true -> Shell.fmt_safe c = true.
Proof.
  intros H. unfold Shell.fmt_safe.
  destruct (Ascii.eqb c "%"%char) eqn:E1.
  { apply Ascii.eqb_eq in E1. subst c. vm_compute in H. discriminate. }
  destruct (Ascii.eqb c "\"%char) eqn:E2.
  { apply Ascii.eqb_eq in E2. subst c. vm_compute in H. discriminate. }
  reflexivity.
Qed.

(** Inverting a successful synthesis of an environment stack. *)
Ltac synth_inv H :=
  cbn [synth_env_stack] in H;
  unfold ECSEnvironmentStack.ECSEnvironmentStack, ApplicationStack.ApplicationStack,
    ApplicationStackPart001.ApplicationStack in H;
  cbv zeta in H;
  lazymatch type of H with
  | (if ?c then _ else _) = _ =>
      let Hok := fresh "Hok" in
      destruct c eqn:Hok; [injection H as <- | discriminate H]
  end.

Lemma build_project_intro (p : Cdk.Pipeline) (pr : Cdk.Project)
    (P : Cdk.Project -> BuildSpec.state -> Prop) :
  build_project p = Some pr -> (exists s, P pr s) ->
  exists pr' s, build_project p = Some pr' /\ P pr' s.
Proof. intros H [s Hs]. exists pr, s. split; assumption. Qed.

Lemma allowed_fmt_safe (s : string) :
  str_forallb (fun c => is_alnum c || char_in ".@_-" c) s = true ->
  str_forallb Shell.fmt_safe s = true.
Proof. apply str_forallb_impl, pipeline_char_fmt_safe. Qed.

Ltac not_ifs_char :=
  let c := fresh "c" in let H := fresh "H" in let E := fresh "E" in
  intros c H; destruct (Shell.ifs_char c) eqn:E; [exfalso|reflexivity];
  unfold Shell.ifs_char in E;
  repeat (apply orb_true_iff in E as [E|E]);
  apply Ascii.eqb_eq in E; subst c; vm_compute in H; discriminate H.

Lemma repositoryUri_no_ifs (aws : aws_env) (n : string) :
  aws_env_ok aws = true -> ecr_repository_name_ok n = true ->
  str_forallb (fun c => negb (Shell.ifs_char c)) (repositoryUri aws n) = true.
Proof.
  unfold aws_env_ok, ecr_repository_name_ok, repositoryUri.
  intros Ha Hn. apply andb_true_iff in Ha as [Ha Hs]. apply andb_true_iff in Ha as [Ha Hr].
  repeat (rewrite !str_forallb_app; simpl).
  apply (str_forallb_impl _ (fun c => negb (Shell.ifs_char c))) in Ha, Hr, Hs, Hn;
    try not_ifs_char.
  rewrite Ha, Hr, Hs, Hn.
  reflexivity.
Qed.

(** C1: for every synthesized environment stack (under the AWS naming
    rules for the account, region and registry), the Build project's
    post-build phase writes an imagedefinitions.json holding exactly one
    entry, whose name is the task's container name and whose imageUri is
    the registry URI, a colon and the deployment tag.  The URI is expanded
    unquoted by the script; the naming rules keep it a single field. *)
Theorem imagedefinitions_single_entry (i : EnvStackInstance) (st : Cdk.EnvironmentStack)
    (base : gmap string string) :
  synth_env_stack i = Some st ->
  aws_env_ok (instance_aws i) = true ->
  ecr_repository_name_ok (Cdk.imageRepositoryName (Cdk.image (Cdk.container st))) = true ->
  exists pr s, build_project (Cdk.pipeline st) = Some pr
    /\ run_imagedefinitions base pr = Some s
    /\ BuildSpec.files s !! "imagedefinitions.json"
       = Some (imagedefinitions_json
                 [(Cdk.containerName (Cdk.container st),
                   repositoryUri (instance_aws i) (Cdk.imageRepositoryName (Cdk.image (Cdk.container st)))
                   +:+ ":" +:+ Cdk.imageTag (Cdk.image (Cdk.container st)))]).
Proof.
  intros Hsyn Ha Hn. pose proof (repositoryUri_no_ifs _ _ Ha Hn) as Hu. clear Ha Hn.
  destruct i as [aws props|aws props|aws n props]; synth_inv Hsyn;
    simpl in Hu |- *; (eapply build_project_intro; [reflexivity|]);
    apply ManifestFacts.imagedefinitions_builder_run; try exact Hu; try reflexivity.
  unfold Cdk.pipelineNameOk, Cdk.validPipelineName in Hok. cbn [Cdk.pipelineName] in Hok.
  apply andb_true_iff in Hok as [_ Hok].
  rewrite !str_forallb_app in Hok. simpl in Hok.
  repeat rewrite andb_true_iff in Hok.
  destruct Hok as [[Ha Ht] _].
  repeat (rewrite !str_forallb_app; simpl).
  rewrite (allowed_fmt_safe _ Ha), (allowed_fmt_safe _ (proj1 Ht)). reflexivity.
Qed.

Lemma detail_one (m : gmap string string) (k a : string) :
  (match m !! k with Some v => String.eqb v a || false | None => false end) = true
  <-> m !! k = Some a.
Proof.
  destruct (m !! k) as [v|]; rewrite ?orb_false_r; split; try discriminate.
  - intros H. apply String.eqb_eq in H. now subst.
  - intros H. injection H as ->. apply String.eqb_refl.
Qed.

Lemma pattern_matches_single (src k1 v1 k2 v2 k3 v3 k4 v4 : string) (ev : Cdk.Event) :
  Cdk.pattern_matches
    {| Cdk.patternSource := [src];
       Cdk.patternDetail := [(k1, [v1]); (k2, [v2]); (k3, [v3]); (k4, [v4])] |} ev = true
  <-> Cdk.eventSource ev = src
      /\ Cdk.eventDetail ev !! k1 = Some v1 /\ Cdk.eventDetail ev !! k2 = Some v2
      /\ Cdk.eventDetail ev !! k3 = Some v3 /\ Cdk.eventDetail ev !! k4 = Some v4.
Proof.
  unfold Cdk.pattern_matches. cbn [existsb forallb Cdk.patternSource Cdk.patternDetail].
  rewrite orb_false_r, andb_true_r, !andb_true_iff, String.eqb_eq, !detail_one.
  tauto.
Qed.

(** C5: every environment stack scales its service between 1 and 4 tasks
    with two target-tracking policies, CPU then memory, each at 70% with
    60-second scale-in and scale-out cooldowns. *)
Theorem scaling_bounds (i : EnvStackInstance) (st : Cdk.EnvironmentStack) :
  synth_env_stack i = Some st ->
  Cdk.minCapacity (Cdk.scaling st) = 1 /\ Cdk.maxCapacity (Cdk.scaling st) = 4
  /\ map (fun pol => (Cdk.metric pol, Cdk.targetUtilizationPercent pol,
                      Cdk.scaleInCooldown pol, Cdk.scaleOutCooldown pol))
         (Cdk.policies (Cdk.scaling st))
     = [(Cdk.CpuUtilization, 70, 60, 60); (Cdk.MemoryUtilization, 70, 60, 60)].
Proof.
  intros Hsyn. destruct i as [aws props|aws props|aws n props]; synth_inv Hsyn;
    repeat split.
Qed.

(** C6: the trigger rule of every environment stack matches exactly the
    ECR events with action-type PUSH, the container image's tag, the
    container image's repository and result SUCCESS, and its one target
    starts the stack's pipeline. *)
Theorem trigger_rule_pattern (i : EnvStackInstance) (st : Cdk.EnvironmentStack) (ev : Cdk.Event) :
  synth_env_stack i = Some st ->
  (Cdk.pattern_matches (Cdk.eventPattern (Cdk.trigger st)) ev = true
   <-> Cdk.eventSource ev = "aws.ecr"
       /\ Cdk.eventDetail ev !! "action-type" = Some "PUSH"
       /\ Cdk.eventDetail ev !! "image-tag" = Some (Cdk.imageTag (Cdk.image (Cdk.container st)))
       /\ Cdk.eventDetail ev !! "repository-name"
          = Some (Cdk.imageRepositoryName (Cdk.image (Cdk.container st)))
       /\ Cdk.eventDetail ev !! "result" = Some "SUCCESS")
  /\ Cdk.targets (Cdk.trigger st) = [Cdk.StartPipeline (Cdk.pipelineId st)].
Proof.
  intros Hsyn. destruct i as [aws props|aws props|aws n props]; synth_inv Hsyn;
    (split; [apply pattern_matches_single | reflexivity]).
Qed.

(** C7: every deploy pipeline has exactly the stages Source, Build and
    Deploy, in this order, with one action each (an ECR source, a
    CodeBuild build, an ECS deploy), and [restartExecutionOnUpdate] is
    false. *)
Theorem pipeline_three_stages (i : EnvStackInstance) (st : Cdk.EnvironmentStack) :
  synth_env_stack i = Some st ->
  pipeline_shape (Cdk.pipeline st)
    = [("Source", ["ECR"]); ("Build", ["CodeBuild"]); ("Deploy", ["ECS"])]
  /\ Cdk.restartExecutionOnUpdate (Cdk.pipeline st) = false.
Proof.
  intros Hsyn. destruct i as [aws props|aws props|aws n props]; synth_inv Hsyn;
    split; reflexivity.
Qed.

(** C10: every environment stack runs its tasks in public subnets with
    public IPs, declares its VPC without NAT gateways, and serves through
    a public load balancer listening on port 80 while the container's
    only port mapping is 3000. *)
Theorem public_networking (i : EnvStackInstance) (st : Cdk.EnvironmentStack) :
  synth_env_stack i = Some st ->
  Cdk.taskSubnets (Cdk.service st) = Cdk.PUBLIC
  /\ Cdk.assignPublicIp (Cdk.service st) = true
  /\ Cdk.natGateways (Cdk.vpc st) = 0
  /\ Cdk.publicLoadBalancer (Cdk.service st) = true
  /\ Cdk.listenerPort (Cdk.service st) = 80
  /\ map Cdk.containerPort (Cdk.portMappings (Cdk.container st)) = [3000].
Proof.
  intros Hsyn. destruct i as [aws props|aws props|aws n props]; synth_inv Hsyn;
    repeat split.
Qed.

(** C8 (amended): both [PipelineStack] classes of
    src/lib/pipeline-stack.ts synthesize from the infrastructure
    repository's [master] branch and add two application stages, a prod
    stage from [master] tagged environment=prod, then a staging stage
    from [develop] tagged environment=staging. *)
Theorem pipeline_stack_stages :
  Forall (fun p =>
            PipelineStack.synthInput p = ("shustariov-andrey/cdk-nest-docker", "master")
            /\ map (fun '(_, b, t) => (b, t)) (PipelineStack.stage_summary p)
               = [("master", [("environment", "prod")]);
                  ("develop", [("environment", "staging")])])
    [PipelineStack.PipelineStack_lines1_39; PipelineStack.PipelineStack_lines41_86].
Proof. repeat constructor. Qed.

(** C8 (counterexample): the [PipelineStack] of src/unnamed/part_004
    adds a single untagged stage, [Prod] from [master]: there is no
    staging stage and no environment tag. *)
Lemma pipeline_stack_stages_counterexample :
  PipelineStack.stage_summary PipelineStack.PipelineStack_part004 = [("Prod", "master", [])]
  /\ ~ In "develop" (map (fun '(_, b, _) => b)
                         (PipelineStack.stage_summary PipelineStack.PipelineStack_part004)).
Proof.
  split; [reflexivity|]. simpl. intros [H|[]]. discriminate H.
Qed.

Lemma same_entries_nil (l : list (string * string)) :
  EmptyStackTest.same_entries l [] = true <-> l = [].
Proof.
  destruct l as [|x l]; [split; reflexivity|]. split; [|discriminate].
  unfold EmptyStackTest.same_entries, EmptyStackTest.entries_subset. cbn.
  rewrite bool_decide_eq_false_2 by (intros Hx; inversion Hx). discriminate.
Qed.

Lemma scalars_none (a b c : option string) :
  [a; b; c] = [None; None; None] <-> a = None /\ b = None /\ c = None.
Proof.
  split; [intros H; injection H as -> -> ->; auto | intros (-> & -> & ->); reflexivity].
Qed.

(** C9 (amended): the repository's test is an EXACT match against the
    template [{ "Resources": {} }]: it passes exactly on a synthesized
    template with no format version, description or transform and with
    no metadata, parameters, mappings, conditions, resources, outputs or
    other sections. *)
Theorem empty_stack_test_exact (t : EmptyStackTest.Template) :
  EmptyStackTest.empty_stack_test t = true
  <-> EmptyStackTest.AWSTemplateFormatVersion t = None /\ EmptyStackTest.Description t = None
      /\ EmptyStackTest.Transform t = None /\ EmptyStackTest.Metadata t = []
      /\ EmptyStackTest.Parameters t = [] /\ EmptyStackTest.Mappings t = []
      /\ EmptyStackTest.Conditions t = [] /\ EmptyStackTest.Resources t = []
      /\ EmptyStackTest.Outputs t = [] /\ EmptyStackTest.OtherSections t = [].
Proof.
  destruct t as [v d tr me pa ma co re ou ot].
  unfold EmptyStackTest.empty_stack_test, EmptyStackTest.matchTemplate,
    EmptyStackTest.scalars, EmptyStackTest.sections, EmptyStackTest.emptyTemplate.
  cbn [combine forallb EmptyStackTest.AWSTemplateFormatVersion EmptyStackTest.Description
       EmptyStackTest.Transform EmptyStackTest.Metadata EmptyStackTest.Parameters
       EmptyStackTest.Mappings EmptyStackTest.Conditions EmptyStackTest.Resources
       EmptyStackTest.Outputs EmptyStackTest.OtherSections].
  rewrite !andb_true_iff, bool_decide_eq_true, scalars_none, !same_entries_nil. tauto.
Qed.

(** C9 (counterexample): a template with one resource passes a SUPERSET
    match against the empty template but fails the repository's test. *)
Lemma empty_stack_test_exact_counterexample :
  let t := {| EmptyStackTest.AWSTemplateFormatVersion := None; EmptyStackTest.Description := None;
              EmptyStackTest.Transform := None; EmptyStackTest.Metadata := [];
              EmptyStackTest.Parameters := []; EmptyStackTest.Mappings := [];
              EmptyStackTest.Conditions := [];
              EmptyStackTest.Resources :=
                [("Vpc8378EB38", "{" +:+ dq +:+ "Type" +:+ dq +:+ ":" +:+ dq +:+ "AWS::EC2::VPC"
                                 +:+ dq +:+ "}")];
              EmptyStackTest.Outputs := []; EmptyStackTest.OtherSections := [] |} in
  EmptyStackTest.matchTemplate EmptyStackTest.emptyTemplate EmptyStackTest.SUPERSET t = true
  /\ EmptyStackTest.empty_stack_test t = false.
Proof. split; reflexivity. Qed.

(* ------------------------------------------------------------------ *)
(** ** Concrete runs *)

Lemma imagedefinitions_single_entry_witness :
  exists st, synth_env_stack (ECSEnv example_aws example_ecs_props) = Some st
  /\ aws_env_ok example_aws = true
  /\ ecr_repository_name_ok (Cdk.imageRepositoryName (Cdk.image (Cdk.container st))) = true
  /\ exists pr s, build_project (Cdk.pipeline st) = Some pr
      /\ run_imagedefinitions ∅ pr = Some s
      /\ BuildSpec.files s !! "imagedefinitions.json"
         = Some (imagedefinitions_json
                   [(Cdk.containerName (Cdk.container st),
                     repositoryUri example_aws (Cdk.imageRepositoryName (Cdk.image (Cdk.container st)))
                     +:+ ":" +:+ Cdk.imageTag (Cdk.image (Cdk.container st)))]).
Proof.
  eexists. split; [reflexivity|]. split; [reflexivity|]. split; [reflexivity|].
  apply (imagedefinitions_single_entry (ECSEnv example_aws example_ecs_props)); reflexivity.
Defined.




Lemma scaling_bounds_witness :
  exists st, synth_env_stack (ECSEnv example_aws example_ecs_props) = Some st
  /\ Cdk.minCapacity (Cdk.scaling st) = 1 /\ Cdk.maxCapacity (Cdk.scaling st) = 4
  /\ map (fun pol => (Cdk.metric pol, Cdk.targetUtilizationPercent pol,
                      Cdk.scaleInCooldown pol, Cdk.scaleOutCooldown pol))
         (Cdk.policies (Cdk.scaling st))
     = [(Cdk.CpuUtilization, 70, 60, 60); (Cdk.MemoryUtilization, 70, 60, 60)].
Proof.
  eexists. split; [reflexivity|].
  apply (scaling_bounds (ECSEnv example_aws example_ecs_props)); reflexivity.
Defined.

Lemma trigger_rule_pattern_witness :
  exists st, synth_env_stack (ECSEnv example_aws example_ecs_props) = Some st
  /\ Cdk.fires (Cdk.trigger st) (ecr_event "PUSH" "prod" "nest-app" "SUCCESS")
     = [Cdk.StartPipeline (Cdk.pipelineId st)]
  /\ (Cdk.pattern_matches (Cdk.eventPattern (Cdk.trigger st))
        (ecr_event "PUSH" "prod" "nest-app" "SUCCESS") = true
      <-> Cdk.eventSource (ecr_event "PUSH" "prod" "nest-app" "SUCCESS") = "aws.ecr"
          /\ Cdk.eventDetail (ecr_event "PUSH" "prod" "nest-app" "SUCCESS") !! "action-type" = Some "PUSH"
          /\ Cdk.eventDetail (ecr_event "PUSH" "prod" "nest-app" "SUCCESS") !! "image-tag"
             = Some (Cdk.imageTag (Cdk.image (Cdk.container st)))
          /\ Cdk.eventDetail (ecr_event "PUSH" "prod" "nest-app" "SUCCESS") !! "repository-name"
             = Some (Cdk.imageRepositoryName (Cdk.image (Cdk.container st)))
          /\ Cdk.eventDetail (ecr_event "PUSH" "prod" "nest-app" "SUCCESS") !! "result" = Some "SUCCESS")
  /\ Cdk.targets (Cdk.trigger st) = [Cdk.StartPipeline (Cdk.pipelineId st)].
Proof.
  eexists. split; [reflexivity|]. split; [reflexivity|].
  apply (trigger_rule_pattern (ECSEnv example_aws example_ecs_props)); reflexivity.
Defined.

Lemma pipeline_three_stages_witness :
  exists st, synth_env_stack (AppPart001 example_aws "nestapp-repo-1a2b3c"
                                {| ApplicationStack.branchName := "master" |}) = Some st
  /\ pipeline_shape (Cdk.pipeline st)
       = [("Source", ["ECR"]); ("Build", ["CodeBuild"]); ("Deploy", ["ECS"])]
  /\ Cdk.restartExecutionOnUpdate (Cdk.pipeline st) = false.
Proof.
  eexists. split; [reflexivity|].
  apply (pipeline_three_stages (AppPart001 example_aws "nestapp-repo-1a2b3c"
                                  {| ApplicationStack.branchName := "master" |})); reflexivity.
Defined.

Lemma public_networking_witness :
  exists st, synth_env_stack (App example_aws {| ApplicationStack.branchName := "develop" |}) = Some st
  /\ Cdk.taskSubnets (Cdk.service st) = Cdk.PUBLIC
  /\ Cdk.assignPublicIp (Cdk.service st) = true
  /\ Cdk.natGateways (Cdk.vpc st) = 0
  /\ Cdk.publicLoadBalancer (Cdk.service st) = true
  /\ Cdk.listenerPort (Cdk.service st) = 80
  /\ map Cdk.containerPort (Cdk.portMappings (Cdk.container st)) = [3000].
Proof.
  eexists. split; [reflexivity|].
  apply (public_networking (App example_aws {| ApplicationStack.branchName := "develop" |}));
    reflexivity.
Defined.

(* ================================================================== *)
(** * Further properties of the stacks and build scripts *)

Lemma str_length_app (a b : string) :
  String.length (a +:+ b) = String.length a + String.length b.
Proof. induction a as [|x a IH]; simpl; [reflexivity | now rewrite IH]. Qed.

(** Two concatenations with first parts of equal length agree on them. *)
Lemma str_app_eq_len (a b c d : string) :
  a +:+ c = b +:+ d -> String.length a = String.length b -> a = b.
Proof.
  revert b. induction a as [|x a IH]; intros b E L; destruct b as [|y b]; try discriminate L.
  - reflexivity.
  - simpl in E, L. injection E as -> E. f_equal. apply (IH b E). lia.
Qed.

Lemma str_app_cancel_l (a b c : string) : a +:+ b = a +:+ c -> b = c.
Proof. induction a as [|x a IH]; simpl; [auto | intros E; injection E; auto]. Qed.

(** Two [ECSEnvironmentStack]s of one app with different image tags (the
    [prod] and [dev] stacks of the app) get different container, service
    and pipeline names, and no ECR event starts both pipelines. *)
Theorem ecs_stacks_distinct (aws : aws_env) (p1 p2 : ECSEnvironmentStack.ECSEnvironmentStackProps)
    (s1 s2 : Cdk.EnvironmentStack) :
  ECSEnvironmentStack.ECSEnvironmentStack aws p1 = Some s1 ->
  ECSEnvironmentStack.ECSEnvironmentStack aws p2 = Some s2 ->
  ECSEnvironmentStack.appName p1 = ECSEnvironmentStack.appName p2 ->
  ECSEnvironmentStack.imageTag p1 <> ECSEnvironmentStack.imageTag p2 ->
  Cdk.containerName (Cdk.container s1) <> Cdk.containerName (Cdk.container s2)
  /\ Cdk.serviceName (Cdk.service s1) <> Cdk.serviceName (Cdk.service s2)
  /\ Cdk.pipelineId s1 <> Cdk.pipelineId s2
  /\ forall ev, Cdk.fires (Cdk.trigger s1) ev = [] \/ Cdk.fires (Cdk.trigger s2) ev = [].
Proof.
  intros H1 H2 HA HT.
  unfold ECSEnvironmentStack.ECSEnvironmentStack in H1, H2. cbv zeta in H1, H2.
  destruct (Cdk.pipelineNameOk _) in H1; [injection H1 as <-|discriminate H1].
  destruct (Cdk.pipelineNameOk _) in H2; [injection H2 as <-|discriminate H2].
  cbn [Cdk.container Cdk.service Cdk.pipelineId Cdk.containerName Cdk.serviceName Cdk.trigger].
  rewrite HA. set (A := ECSEnvironmentStack.appName p2).
  set (T1 := ECSEnvironmentStack.imageTag p1) in *. set (T2 := ECSEnvironmentStack.imageTag p2) in *.
  assert (Hinj : forall a b, T1 +:+ a = T2 +:+ b -> String.length a = String.length b -> False).
  { intros a b E L. apply HT. apply (str_app_eq_len _ _ _ _ E).
    apply (f_equal String.length) in E. rewrite !str_length_app in E. lia. }
  split; [|split; [|split]].
  - intros E. apply str_app_cancel_l in E. simpl in E. injection E as E.
    exact (Hinj _ _ E eq_refl).
  - intros E. injection E as E. apply str_app_cancel_l in E. simpl in E. injection E as E.
    exact (Hinj _ _ E eq_refl).
  - intros E. rewrite !str_app_assoc in E. apply str_app_cancel_l in E. simpl in E.
    injection E as E. rewrite !str_app_assoc in E. apply (Hinj _ _ E).
    apply (f_equal String.length) in E. rewrite !str_length_app in E. simpl in E |- *.
    rewrite !str_length_app in E |- *. simpl in E |- *. lia.
  - intros ev. unfold Cdk.fires. cbn [Cdk.eventPattern].
    match goal with
    | |- (if ?a then _ else _) = [] \/ (if ?b then _ else _) = [] =>
        destruct a eqn:E1; [|now left]; destruct b eqn:E2; [|now right]
    end.
    exfalso. apply pattern_matches_single in E1, E2.
    destruct E1 as (_ & _ & E1 & _), E2 as (_ & _ & E2 & _).
    rewrite E1 in E2. injection E2 as E2. exact (HT E2).
Qed.

(* ------------------------------------------------------------------ *)
(** ** Patterns of literal characters *)

Module RegexFacts.
Import Regex.

Lemma lit_char_facts (c : ascii) :
  negb (char_in ".*$" c) = true ->
  Ascii.eqb c "."%char = false /\ Ascii.eqb c "*"%char = false /\ Ascii.eqb c "$"%char = false.
Proof.
  unfold char_in. simpl. intros H.
  destruct (Ascii.eqb c "."%char), (Ascii.eqb c "*"%char), (Ascii.eqb c "$"%char);
    simpl in H; try discriminate H; auto.
Qed.

Lemma char_ok_lit (c x : ascii) :
  Ascii.eqb c "."%char = false ->
  char_ok c x = if ascii_dec c x then true else false.
Proof.
  intros Hc. unfold char_ok. rewrite Hc. simpl.
  destruct (ascii_dec c x) as [->|Hne]; [apply Ascii.eqb_refl|].
  now apply Ascii.eqb_neq.
Qed.

(** One ordinary pattern character, not followed by [*] and not a final
    [$], consumes one matching text character. *)
Lemma match_here_plain (c : ascii) (rest text : list ascii) :
  match rest with
  | [] => Ascii.eqb c "$"%char = false
  | d :: _ => Ascii.eqb d "*"%char = false
  end ->
  match_here (c :: rest) text
  = match text with x :: t' => char_ok c x && match_here rest t' | [] => false end.
Proof.
  intros H. destruct rest as [|d rest].
  - cbn [match_here]. rewrite H. reflexivity.
  - change (match_here (c :: d :: rest) text) with
      (if Ascii.eqb d "*"%char then
         (fix star (t : list ascii) : bool :=
            match_here rest t
            || match t with x :: t' => char_ok c x && star t' | [] => false end) text
       else match text with x :: t' => char_ok c x && match_here (d :: rest) t' | [] => false end).
    rewrite H. reflexivity.
Qed.

Lemma prefix_cons (c x : ascii) (l s : string) :
  String.prefix (String c l) (String x s) = if ascii_dec c x then String.prefix l s else false.
Proof. reflexivity. Qed.

(** A pattern of ordinary characters matches at the start of a text
    exactly when it is a prefix of it. *)
Lemma match_here_literal (lit s : string) :
  str_forallb (fun c => negb (char_in ".*$" c)) lit = true ->
  match_here (list_of_string lit) (list_of_string s) = String.prefix lit s.
Proof.
  revert s. induction lit as [|c lit IH]; intros s H.
  - destruct s; reflexivity.
  - simpl in H. apply andb_true_iff in H as [Hc Hl].
    destruct (lit_char_facts c Hc) as (Hd & Hs & Hdol).
    cbn [list_of_string]. rewrite match_here_plain.
    2: { destruct lit as [|d lit']; [exact Hdol|].
         simpl in Hl. apply andb_true_iff in Hl as [Hd' _].
         exact (proj1 (proj2 (lit_char_facts d Hd'))). }
    destruct s as [|x s]; [reflexivity|]. cbn [list_of_string].
    rewrite char_ok_lit by exact Hd. rewrite IH by exact Hl.
    rewrite prefix_cons. destruct (ascii_dec c x); reflexivity.
Qed.

(** Unanchored, such a pattern matches exactly the texts containing it. *)
Lemma match_anywhere_literal (lit s : string) :
  str_forallb (fun c => negb (char_in ".*$" c)) lit = true ->
  match_anywhere (list_of_string lit) (list_of_string s) = str_contains lit s.
Proof.
  intros H. induction s as [|x s IH].
  - change (match_here (list_of_string lit) (list_of_string "") || false
            = String.prefix lit "" || false).
    now rewrite (match_here_literal lit "" H).
  - change (match_here (list_of_string lit) (list_of_string (String x s))
            || match_anywhere (list_of_string lit) (list_of_string s)
            = String.prefix lit (String x s) || str_contains lit s).
    now rewrite (match_here_literal lit (String x s) H), IH.
Qed.

(** A literal prefix followed by [.*] matches exactly the texts that
    start with the prefix. *)
Lemma match_here_prefix_any (lit s : string) :
  str_forallb (fun c => negb (char_in ".*$" c)) lit = true ->
  match_here (list_of_string lit ++ ["."%char; "*"%char]) (list_of_string s) = String.prefix lit s.
Proof.
  revert s. induction lit as [|c lit IH]; intros s H.
  - destruct s; reflexivity.
  - simpl in H. apply andb_true_iff in H as [Hc Hl].
    destruct (lit_char_facts c Hc) as (Hd & _ & _).
    cbn [list_of_string app]. rewrite match_here_plain.
    2: { destruct lit as [|d lit']; [reflexivity|].
         simpl in Hl. apply andb_true_iff in Hl as [Hd' _].
         exact (proj1 (proj2 (lit_char_facts d Hd'))). }
    destruct s as [|x s]; [reflexivity|]. cbn [list_of_string].
    rewrite char_ok_lit by exact Hd. rewrite IH by exact Hl.
    rewrite prefix_cons. destruct (ascii_dec c x); reflexivity.
Qed.

End RegexFacts.

Module BinFacts.
Import Shell BuildSpec ImageBuilderStack.

Lemma ere_master (b : string) : Regex.ere_match b "master" = str_contains "master" b.
Proof.
  change (Regex.match_anywhere (Regex.list_of_string "master") (Regex.list_of_string b)
          = str_contains "master" b).
  now apply RegexFacts.match_anywhere_literal.
Qed.

Lemma ere_develop (b : string) : Regex.ere_match b "develop" = str_contains "develop" b.
Proof.
  change (Regex.match_anywhere (Regex.list_of_string "develop") (Regex.list_of_string b)
          = str_contains "develop" b).
  now apply RegexFacts.match_anywhere_literal.
Qed.

Lemma ere_release (b : string) : Regex.ere_match b "^release/.*" = String.prefix "release/" b.
Proof.
  change (Regex.match_here (Regex.list_of_string "release/" ++ ["."%char; "*"%char])
            (Regex.list_of_string b) = String.prefix "release/" b).
  now apply RegexFacts.match_here_prefix_any.
Qed.

End BinFacts.

(** The branch mapping of the app's [ImageBuilderStack] uses unanchored
    patterns: after pre_build, [ENV_TAG] is [uat] for a branch starting
    with [release/], otherwise [dev] for a branch containing [develop]
    anywhere, otherwise [prod] for a branch containing [master] anywhere
    (e.g. [feature/master-fix]); any other branch leaves it as the
    container had it. *)
Theorem bin_branch_env_tag (git : BuildSpec.checkout) (base : gmap string string) (aws : aws_env) :
  exists s, fst (ImageBuilderStack.run_build Regex.ere_match git base
                   (ImageBuilderStack.ImageBuilderStack aws Bin.ImageBuilderStack_props)) = Some s
  /\ BuildSpec.vars s !! "ENV_TAG" =
     (let b := ImageBuilderStack.resolved_branch git in
      if String.prefix "release/" b then Some "uat"
      else if str_contains "develop" b then Some "dev"
      else if str_contains "master" b then Some "prod"
      else base !! "ENV_TAG").
Proof.
  unfold ImageBuilderStack.run_build. cbn [fst ImageBuilderStack.preBuild ImageBuilderStack.ImageBuilderStack].
  destruct (BuildFacts.pre_build_run Regex.ere_match git
              (ImageBuilderStack.branchMapping Bin.ImageBuilderStack_props)
              (codebuild_start base (ImageBuilderStack.projectEnv
                 (ImageBuilderStack.ImageBuilderStack aws Bin.ImageBuilderStack_props))) eq_refl)
    as (s & E & Hs).
  { intros p t Hin. unfold ImageBuilderStack.matching_entries in Hin.
    apply List.filter_In in Hin as [Hin _].
    simpl in Hin. destruct Hin as [H|[H|[H|[]]]]; injection H as <- <-; reflexivity. }
  exists s. split; [exact E|]. rewrite Hs, BuildFacts.codebuild_start_env_tag.
  unfold ImageBuilderStack.matching_entries. cbn [Bin.ImageBuilderStack_props ImageBuilderStack.branchMapping].
  cbn [List.filter]. rewrite BinFacts.ere_master, BinFacts.ere_develop, BinFacts.ere_release.
  cbv zeta.
  destruct (String.prefix "release/" _), (str_contains "develop" _), (str_contains "master" _);
    reflexivity.
Qed.

Module BuildFacts3.
Import Shell BuildSpec ImageBuilderStack ShellFacts BuildFacts.




End BuildFacts3.

Lemma image_builder_start_vars (base : gmap string string) (aws : aws_env) (repo : string)
    (pvars : list (string * string)) :
  pvars = [("IMAGE_NAME", repo); ("ECR_REPO_URI", repositoryUri aws repo)] ->
  BuildSpec.vars (codebuild_start base pvars)
  = <["ECR_REPO_URI" := repositoryUri aws repo]> (<["IMAGE_NAME" := repo]> base).
Proof. intros ->. reflexivity. Qed.



Module ExpandFacts.
Import Shell ShellFacts.

Lemma expand_lits (e : env) (w : word) (s : string) :
  concat (map (part_toks e) w) = lit_toks s -> s <> "" -> expand_word e w = [s].
Proof. intros E H. unfold expand_word. rewrite E. now apply fields_lit. Qed.

Lemma exp_toks_lookup (e : env) (x v : string) :
  e !! x = Some v -> str_forallb (fun c => negb (ifs_char c)) v = true ->
  exp_toks (var_value e x) = lit_toks v.
Proof. intros H Hv. unfold var_value. rewrite H. now apply exp_toks_no_ifs. Qed.

Lemma expand_lit (e : env) (l : string) : l <> "" -> expand_word e [Lit l] = [l].
Proof. intros H. apply expand_lits; [simpl; now rewrite app_nil_r | exact H]. Qed.

Lemma expand_var (e : env) (x v : string) :
  e !! x = Some v -> str_forallb (fun c => negb (ifs_char c)) v = true -> v <> "" ->
  expand_word e [Var x] = [v].
Proof.
  intros H Hv Hne. apply expand_lits; [|exact Hne].
  simpl. rewrite (exp_toks_lookup e x v H Hv). apply app_nil_r.
Qed.

Lemma expand_lit_var (e : env) (l y vy : string) :
  e !! y = Some vy -> str_forallb (fun c => negb (ifs_char c)) vy = true -> l <> "" ->
  expand_word e [Lit l; Var y] = [l +:+ vy].
Proof.
  intros H Hv Hne. apply expand_lits.
  - simpl. rewrite (exp_toks_lookup e y vy H Hv), app_nil_r. now rewrite lit_toks_app.
  - destruct l; [contradiction|discriminate].
Qed.

Lemma expand_var_lit (e : env) (x l vx : string) :
  e !! x = Some vx -> str_forallb (fun c => negb (ifs_char c)) vx = true -> l <> "" ->
  expand_word e [Var x; Lit l] = [vx +:+ l].
Proof.
  intros H Hv Hne. apply expand_lits.
  - simpl. rewrite (exp_toks_lookup e x vx H Hv), app_nil_r. now rewrite lit_toks_app.
  - destruct vx; [destruct l; [contradiction|discriminate]|discriminate].
Qed.

Lemma expand_var_lit_var (e : env) (x l y vx vy : string) :
  e !! x = Some vx -> e !! y = Some vy ->
  str_forallb (fun c => negb (ifs_char c)) vx = true ->
  str_forallb (fun c => negb (ifs_char c)) vy = true -> l <> "" ->
  expand_word e [Var x; Lit l; Var y] = [vx +:+ l +:+ vy].
Proof.
  intros Hx Hy Hvx Hvy Hne. apply expand_lits.
  - simpl. rewrite (exp_toks_lookup e x vx Hx Hvx), (exp_toks_lookup e y vy Hy Hvy), app_nil_r.
    now rewrite !lit_toks_app.
  - destruct vx; [destruct l; [contradiction|discriminate]|discriminate].
Qed.

End ExpandFacts.


Lemma ecr_name_no_ifs (n : string) :
  ecr_repository_name_ok n = true -> str_forallb (fun c => negb (Shell.ifs_char c)) n = true.
Proof. apply str_forallb_impl. not_ifs_char. Qed.

Lemma repositoryUri_nonempty (aws : aws_env) (n : string) : repositoryUri aws n <> "".
Proof.
  unfold repositoryUri. intros E. apply (f_equal String.length) in E.
  rewrite !str_length_app in E. simpl in E. lia.
Qed.


Module BuildFacts4.
Import Shell BuildSpec.

Lemma exec_all_docker (m : string -> string -> bool) (g : checkout) (wss : list (list word))
    (s : state) :
  exec_all m g (map Docker wss) s =
  if forallb (docker_ok g) (map (argv (vars s)) wss)
  then Some {| vars := vars s; files := files s; log := log s ++ map (argv (vars s)) wss |}
  else None.
Proof.
  revert s. induction wss as [|ws wss IH]; intros s; cbn [map exec_all forallb exec].
  - destruct s. cbn. now rewrite app_nil_r.
  - destruct (docker_ok g (argv (vars s) ws)); [|reflexivity].
    rewrite IH. cbn [vars files log]. now rewrite <- app_assoc.
Qed.

(** Docker commands, the registry login, docker commands: the phase
    succeeds exactly when each of them does. *)
Lemma exec_all_docker_login (m : string -> string -> bool) (g : checkout)
    (l1 l2 : list (list word)) (s : state) :
  exec_all m g (map Docker l1 ++ EcrLogin :: map Docker l2) s =
  if forallb (docker_ok g) (map (argv (vars s)) l1) && ecr_login_ok g
     && forallb (docker_ok g) (map (argv (vars s)) l2)
  then Some {| vars := vars s; files := files s;
               log := log s ++ map (argv (vars s)) l1 ++ map (argv (vars s)) l2 |}
  else None.
Proof.
  rewrite BuildFacts.exec_all_app, exec_all_docker.
  destruct (forallb (docker_ok g) (map (argv (vars s)) l1)); [|reflexivity].
  cbn [exec_all exec andb]. destruct (ecr_login_ok g); [|reflexivity].
  rewrite exec_all_docker. cbn [vars files log].
  destruct (forallb (docker_ok g) (map (argv (vars s)) l2)); [|reflexivity].
  now rewrite <- app_assoc.
Qed.


Lemma app_build_split :
  ApplicationStackBuild.build =
  map Docker [[[Lit "docker"]; [Lit "build"]; [Lit "--build-arg"]; [Lit "BUILD_NUMBER="; Var "BUILD_NUMBER"];
               [Lit "-t"]; [Var "IMAGE_NAME"; Lit ":"; Var "TAG"]; [Lit "."]];
              [[Lit "docker"]; [Lit "tag"]; [Var "IMAGE_NAME"; Lit ":"; Var "TAG"];
               [Var "ECR_REPO_URI"; Lit ":"; Var "TAG"]];
              [[Lit "docker"]; [Lit "tag"]; [Var "IMAGE_NAME"; Lit ":"; Var "TAG"];
               [Var "ECR_REPO_URI"; Lit ":"; Var "BUILD_NUMBER"]];
              [[Lit "docker"]; [Lit "tag"]; [Var "IMAGE_NAME"; Lit ":"; Var "TAG"];
               [Var "ECR_REPO_URI"; Lit ":latest"]]]
  ++ EcrLogin :: map Docker [[[Lit "docker"]; [Lit "push"]; [Var "ECR_REPO_URI"]]].
Proof. reflexivity. Qed.

End BuildFacts4.


Module ExportFacts.
Import Shell BuildSpec ImageBuilderStack BuildFacts.

Lemma split_blanks_app_noblank (a s cur : string) :
  str_forallb (fun c => negb (blank c)) a = true ->
  split_blanks (a +:+ s) cur = split_blanks s (cur +:+ a).
Proof.
  revert cur. induction a as [|x a IH]; intros cur H; simpl.
  - now rewrite str_app_nil_r.
  - simpl in H. apply andb_true_iff in H as [H1 H2].
    apply negb_true_iff in H1. rewrite H1, IH by exact H2.
    now rewrite str_app_assoc.
Qed.






Lemma split_eq_none (a : string) :
  str_forallb (fun c => negb (Ascii.eqb c "="%char)) a = true -> split_eq a = None.
Proof.
  induction a as [|x a IH]; intros H; [reflexivity|].
  simpl in H. apply andb_true_iff in H as [H1 H2]. apply negb_true_iff in H1.
  simpl. rewrite H1, IH by exact H2. reflexivity.
Qed.

Lemma export_char_noblank (c : ascii) : export_char c = true -> negb (blank c) = true.
Proof.
  intros H. destruct (blank c) eqn:Hb; [|reflexivity]. exfalso.
  unfold blank in Hb. apply orb_true_iff in Hb as [Hb|Hb];
    apply Ascii.eqb_eq in Hb; subst c; vm_compute in H; discriminate.
Qed.

End ExportFacts.


(** A build of the image project of an application stack, with the
    variables the project sets and the commit id and build number of the
    platform: pre_build runs [env]; the build phase succeeds exactly when
    its docker commands, and the registry login with the project's role,
    succeed. *)
Lemma app_build_run (m : string -> string -> bool) (git : BuildSpec.checkout)
    (base : gmap string string) (aws : aws_env) (r b sha n : string) (granted : bool) :
  aws_env_ok aws = true -> ecr_repository_name_ok r = true ->
  base !! "CODEBUILD_RESOLVED_SOURCE_VERSION" = Some sha ->
  str_forallb (fun c => negb (Shell.ifs_char c)) sha = true ->
  base !! "CODEBUILD_BUILD_NUMBER" = Some n ->
  str_forallb (fun c => negb (Shell.ifs_char c)) n = true ->
  let uri := repositoryUri aws r in
  let docker_cmds :=
    [["docker"; "build"; "--build-arg"; "BUILD_NUMBER=" +:+ n; "-t"; r +:+ ":" +:+ sha; "."];
     ["docker"; "tag"; r +:+ ":" +:+ sha; uri +:+ ":" +:+ sha];
     ["docker"; "tag"; r +:+ ":" +:+ sha; uri +:+ ":" +:+ n];
     ["docker"; "tag"; r +:+ ":" +:+ sha; uri +:+ ":latest"]] in
  let push := ["docker"; "push"; uri] in
  exists s, fst (ImageBuilderStack.run_build m git base (ApplicationStackBuild.ImgBuilder aws r b granted))
            = Some s
  /\ BuildSpec.log s = [["env"]]
  /\ snd (ImageBuilderStack.run_build m git base (ApplicationStackBuild.ImgBuilder aws r b granted))
     = if forallb (BuildSpec.docker_ok git) docker_cmds && (granted && BuildSpec.ecr_login_ok git)
          && BuildSpec.docker_ok git push
       then Some {| BuildSpec.vars := BuildSpec.vars s; BuildSpec.files := BuildSpec.files s;
                    BuildSpec.log := [["env"]] ++ docker_cmds ++ [push] |}
       else None.
Proof.
  intros Haws Hr Hsha Hsha' Hn Hn' uri. cbv zeta.
  pose proof (ecr_name_no_ifs _ Hr) as Hr'.
  pose proof (repositoryUri_no_ifs _ _ Haws Hr) as Hu.
  unfold ImageBuilderStack.run_build.
  cbn [fst snd ImageBuilderStack.preBuild ImageBuilderStack.buildCmds ImageBuilderStack.projectEnv
       ImageBuilderStack.ecrAccess ApplicationStackBuild.ImgBuilder ApplicationStackBuild.pre_build
       BuildSpec.exec_all BuildSpec.exec].
  rewrite (image_builder_start_vars base aws r) by reflexivity.
  cbn [BuildSpec.vars BuildSpec.set_vars].
  unfold Shell.var_value. rewrite !lookup_insert_ne by discriminate. rewrite Hsha, Hn.
  eexists. split; [reflexivity|]. split; [reflexivity|].
  rewrite BuildFacts4.app_build_split, BuildFacts4.exec_all_docker_login.
  cbn [BuildSpec.log BuildSpec.vars BuildSpec.files codebuild_start BuildSpec.set_vars].
  set (e := <["BUILD_NUMBER" := n]> _).
  assert (Hbn : e !! "BUILD_NUMBER" = Some n) by (unfold e; now rewrite lookup_insert_eq).
  assert (Htag : e !! "TAG" = Some sha)
    by (unfold e; now rewrite lookup_insert_ne, lookup_insert_eq by discriminate).
  assert (Himg : e !! "IMAGE_NAME" = Some r)
    by (unfold e; now rewrite !lookup_insert_ne, lookup_insert_eq by discriminate).
  assert (Huri : e !! "ECR_REPO_URI" = Some uri)
    by (unfold e; now rewrite !lookup_insert_ne, lookup_insert_eq by discriminate).
  unfold Shell.argv. cbn [map concat].
  rewrite !ExpandFacts.expand_lit by discriminate.
  rewrite (ExpandFacts.expand_lit_var _ "BUILD_NUMBER=" "BUILD_NUMBER" n Hbn Hn') by discriminate.
  rewrite (ExpandFacts.expand_var_lit_var _ "IMAGE_NAME" ":" "TAG" r sha Himg Htag Hr' Hsha')
    by discriminate.
  rewrite (ExpandFacts.expand_var_lit_var _ "ECR_REPO_URI" ":" "TAG" uri sha Huri Htag Hu Hsha')
    by discriminate.
  rewrite (ExpandFacts.expand_var_lit_var _ "ECR_REPO_URI" ":" "BUILD_NUMBER" uri n Huri Hbn Hu Hn')
    by discriminate.
  rewrite (ExpandFacts.expand_var_lit _ "ECR_REPO_URI" ":latest" uri Huri Hu) by discriminate.
  rewrite (ExpandFacts.expand_var _ "ECR_REPO_URI" uri Huri Hu) by apply repositoryUri_nonempty.
  cbn [ImageBuilderStack.with_role BuildSpec.docker_ok BuildSpec.ecr_login_ok andb forallb app].
  repeat match goal with |- context [BuildSpec.docker_ok git ?a] =>
    destruct (BuildSpec.docker_ok git a) end;
  destruct granted, (BuildSpec.ecr_login_ok git); reflexivity.
Qed.

(** Both [ApplicationStack] versions declare an image build project that
    targets the repository their deploy pipeline reads: its pre_build
    phase succeeds, and a build phase that completes (account, region and
    repository named by the AWS rules; commit id and build number
    without blanks) has tagged the image in that repository's registry
    with the container image's tag, [latest], and ended by pushing the
    registry URI; an ECR push of that tag to that repository is what the
    stack's trigger rule starts its deploy pipeline on. *)
Theorem app_builder_feeds_pipeline (regex_match : string -> string -> bool)
    (git : BuildSpec.checkout) (base : gmap string string) (i : EnvStackInstance)
    (st : Cdk.EnvironmentStack) (ib : ImageBuilderStack.ImageBuilder) (sha n : string) :
  synth_env_stack i = Some st ->
  app_image_builder i = Some ib ->
  aws_env_ok (instance_aws i) = true ->
  ecr_repository_name_ok (ImageBuilderStack.ecrRepositoryName ib) = true ->
  base !! "CODEBUILD_RESOLVED_SOURCE_VERSION" = Some sha ->
  str_forallb (fun c => negb (Shell.ifs_char c)) sha = true ->
  base !! "CODEBUILD_BUILD_NUMBER" = Some n ->
  str_forallb (fun c => negb (Shell.ifs_char c)) n = true ->
  let img := Cdk.image (Cdk.container st) in
  let r := Cdk.imageRepositoryName img in
  let uri := repositoryUri (instance_aws i) r in
  ImageBuilderStack.ecrRepositoryName ib = r
  /\ Cdk.imageTag img = "latest"
  /\ (exists s, fst (ImageBuilderStack.run_build regex_match git base ib) = Some s)
  /\ (forall s', snd (ImageBuilderStack.run_build regex_match git base ib) = Some s' ->
      In ["docker"; "tag"; r +:+ ":" +:+ sha; uri +:+ ":" +:+ Cdk.imageTag img] (BuildSpec.log s')
      /\ List.last (BuildSpec.log s') [] = ["docker"; "push"; uri])
  /\ Cdk.fires (Cdk.trigger st) (ecr_event "PUSH" (Cdk.imageTag img) r "SUCCESS")
     = [Cdk.StartPipeline (Cdk.pipelineId st)].
Proof.
  intros Hsyn Hib Haws Hr Hsha Hsha' Hn Hn' img r uri.
  destruct i as [aws props|aws props|aws rn props]; [discriminate| |];
    injection Hib as <-; synth_inv Hsyn; subst img r uri;
    cbn [instance_aws Cdk.container Cdk.image Cdk.imageRepositoryName Cdk.imageTag
         Cdk.fromEcrRepository ImageBuilderStack.ecrRepositoryName ApplicationStackBuild.ImgBuilder]
      in *.
  all: split; [reflexivity|]; split; [reflexivity|].
  1: pose (granted := false). 2: pose (granted := true).
  1, 2: destruct (app_build_run regex_match git base aws _ (ApplicationStack.branchName props)
                    sha n granted Haws Hr Hsha Hsha' Hn Hn') as (s & E1 & _ & E2);
        split; [exists s; exact E1|]; split;
        [intros s' Hs'; pose proof (eq_trans (eq_sym E2) Hs') as Hc;
         match type of Hc with (if ?c then _ else _) = _ =>
           destruct c; [injection Hc as <-; split; [simpl; tauto | reflexivity] | discriminate] end|].
  all: unfold Cdk.fires; cbn [Cdk.trigger Cdk.eventPattern Cdk.targets Cdk.pipelineId];
    match goal with |- (if ?b then _ else _) = _ =>
      assert (Hp : b = true); [|rewrite Hp; reflexivity] end;
    apply pattern_matches_single; unfold ecr_event; cbn [Cdk.eventSource Cdk.eventDetail];
    repeat split.
Qed.

(** The [ApplicationStack] of src/unnamed/part_002 does not grant its
    image build project access to the repository: the registry login of
    the build phase fails, so no build of that project completes, and it
    never pushes an image. *)
Theorem app_part002_build_never_pushes (regex_match : string -> string -> bool)
    (git : BuildSpec.checkout) (base : gmap string string) (aws : aws_env)
    (props : ApplicationStack.ApplicationStackProps) :
  exists ib, app_image_builder (App aws props) = Some ib
  /\ ImageBuilderStack.ecrAccess ib = false
  /\ snd (ImageBuilderStack.run_build regex_match git base ib) = None.
Proof.
  eexists. split; [reflexivity|]. split; [reflexivity|].
  unfold ImageBuilderStack.run_build. cbn [snd ImageBuilderStack.buildCmds ImageBuilderStack.ecrAccess
                                           ApplicationStackBuild.ImgBuilder].
  destruct (BuildSpec.exec_all _ _ _ _) as [s|]; [|reflexivity].
  rewrite BuildFacts4.app_build_split, BuildFacts4.exec_all_docker_login.
  cbn [ImageBuilderStack.with_role BuildSpec.ecr_login_ok andb].
  destruct (forallb _ _); reflexivity.
Qed.

(** The two application stages of each [PipelineStack] of src/lib (with
    the [ApplicationStack] of src/unnamed/part_002) synthesize the same
    environment stack, with one deploy pipeline name, one repository and
    one trigger: the stage's branch reaches only the webhook of its image
    build project, which filters [master] in the prod stage and
    [develop] in the staging stage, both pushing to that repository. *)
Theorem lib_stages_same_stack (aws : aws_env) :
  Forall (fun p =>
    exists st,
      map (fun s => ApplicationStack.ApplicationStack aws (PipelineStack.appStackProps s))
          (PipelineStack.appStages p) = [Some st; Some st]
      /\ map (fun s => option_map (fun ib => (ImageBuilderStack.ecrRepositoryName ib,
                                              ImageBuilderStack.webhookBranchPatterns ib))
                         (app_image_builder (App aws (PipelineStack.appStackProps s))))
             (PipelineStack.appStages p)
         = [Some (Cdk.imageRepositoryName (Cdk.image (Cdk.container st)), ["master"]);
            Some (Cdk.imageRepositoryName (Cdk.image (Cdk.container st)), ["develop"])])
    [PipelineStack.PipelineStack_lines1_39; PipelineStack.PipelineStack_lines41_86].
Proof.
  repeat constructor; (eexists; split; [reflexivity | reflexivity]).
Qed.

Lemma ecr_event_matches (t r t0 r0 : string) :
  Cdk.pattern_matches
    {| Cdk.patternSource := ["aws.ecr"];
       Cdk.patternDetail := [("action-type", ["PUSH"]); ("image-tag", [t0]);
                             ("repository-name", [r0]); ("result", ["SUCCESS"])] |}
    (ecr_event "PUSH" t r "SUCCESS")
  = String.eqb t t0 && String.eqb r r0.
Proof.
  unfold Cdk.pattern_matches, ecr_event. cbn [existsb forallb Cdk.patternSource Cdk.patternDetail
                                               Cdk.eventSource Cdk.eventDetail].
  simplify_map_eq. cbn [existsb].
  rewrite !orb_false_r, andb_true_r. reflexivity.
Qed.

(** The app of src/bin: the image builder pushes to [nest-cluster-repo],
    the repository both environment stacks deploy from, and a successful
    ECR push of a tag [t] to a repository [r] starts the prod stack's
    pipeline exactly when [t] is [prod] and [r] that repository, the dev
    stack's exactly when [t] is [dev]; no other tag (the builder's [uat]
    among them) starts either. *)
Theorem bin_push_deploys (aws : aws_env) (t r : string) :
  ImageBuilderStack.repoName Bin.ImageBuilderStack_props = "nest-cluster-repo"
  /\ map (fun props => option_map (fun st => Cdk.fires (Cdk.trigger st) (ecr_event "PUSH" t r "SUCCESS"))
                         (ECSEnvironmentStack.ECSEnvironmentStack aws props))
         [Bin.AwsNestDockerStack_props; Bin.AwsNestDockerDevStack_props]
     = [Some (if String.eqb t "prod" && String.eqb r "nest-cluster-repo"
              then [Cdk.StartPipeline "NestApp-prod-Service-prod-DeployPipeline"] else []);
        Some (if String.eqb t "dev" && String.eqb r "nest-cluster-repo"
              then [Cdk.StartPipeline "NestApp-dev-Service-dev-DeployPipeline"] else [])].
Proof.
  split; [reflexivity|].
  cbn [map]. unfold ECSEnvironmentStack.ECSEnvironmentStack. cbv zeta.
  repeat match goal with |- context [if Cdk.pipelineNameOk ?p then _ else _] =>
    replace (Cdk.pipelineNameOk p) with true by (vm_compute; reflexivity) end.
  cbn [option_map Cdk.trigger]. unfold Cdk.fires. cbn [Cdk.eventPattern Cdk.targets].
  rewrite !ecr_event_matches. reflexivity.
Qed.

(** On a matching branch, a tag name [<t> <w>] whose second word [w] is
    neither a shell name nor an assignment (letters, digits, [_], [.]
    and [-], no [=]) makes the mapping command's [export] fail: the
    pre_build command returns an error instead of setting [ENV_TAG]. *)
Theorem mapping_tag_invalid_word_fails (regex_match : string -> string -> bool)
    (git : BuildSpec.checkout) (p t w : string) (s : BuildSpec.state) :
  ImageBuilderStack.docker_tag_word t = true ->
  str_forallb (fun c => BuildSpec.export_char c && negb (Ascii.eqb c "="%char)) w = true ->
  w <> "" ->
  BuildSpec.valid_name w = false ->
  regex_match (Shell.var_value (BuildSpec.vars s) "CODEBUILD_GIT_BRANCH") p = true ->
  BuildSpec.exec regex_match git (ImageBuilderStack.mapping_cmd (p, t +:+ " " +:+ w)) s = None.
Proof.
  intros Ht Hw Hne Hx Hm.
  assert (Hwe : str_forallb BuildSpec.export_char w = true)
    by (apply (str_forallb_impl (fun c => BuildSpec.export_char c && negb (Ascii.eqb c "="%char)));
        [intros c Hc; now apply andb_true_iff in Hc as [Hc _] | exact Hw]).
  assert (Hc : str_forallb (fun c => BuildSpec.export_char c || BuildSpec.blank c)
                 ("ENV_TAG=" +:+ t +:+ " " +:+ w) = true).
  { rewrite !str_forallb_app.
    rewrite (str_forallb_impl _ _ t BuildFacts.docker_tag_char_export Ht).
    rewrite (str_forallb_impl BuildSpec.export_char (fun c => BuildSpec.export_char c || BuildSpec.blank c) w)
      by first [exact Hwe | intros c Hc; now rewrite Hc].
    reflexivity. }
  rewrite BuildFacts.exec_mapping_cmd, Hm. cbn [BuildSpec.exec]. rewrite Hc.
  unfold BuildSpec.shell_args.
  rewrite <- str_app_assoc.
  rewrite ExportFacts.split_blanks_app_noblank.
  2: { rewrite str_forallb_app. cbn -[String.append].
       exact (str_forallb_impl _ _ t BuildFacts.docker_tag_char_noblank Ht). }
  cbn [String.append BuildSpec.split_blanks BuildSpec.blank Ascii.eqb orb Bool.eqb].
  rewrite BuildFacts.split_blanks_noblank
    by exact (str_forallb_impl _ _ w ExportFacts.export_char_noblank Hwe).
  destruct w as [|c w']; [contradiction|].
  cbn -[str_forallb BuildSpec.valid_name].
  replace (BuildSpec.valid_name "ENV_TAG") with true by reflexivity.
  unfold BuildSpec.export_arg.
  rewrite ExportFacts.split_eq_none.
  2: { apply (str_forallb_impl (fun c => BuildSpec.export_char c && negb (Ascii.eqb c "="%char)));
       [intros x Hx'; now apply andb_true_iff in Hx' as [_ Hx'] | exact Hw]. }
  rewrite Hx. destruct (BuildSpec.regex_word p); reflexivity.
Qed.

(* ------------------------------------------------------------------ *)
(** ** Concrete runs of the further properties *)

Lemma ecs_stacks_distinct_witness :
  exists s1 s2,
    ECSEnvironmentStack.ECSEnvironmentStack example_aws Bin.AwsNestDockerStack_props = Some s1
    /\ ECSEnvironmentStack.ECSEnvironmentStack example_aws Bin.AwsNestDockerDevStack_props = Some s2
    /\ Cdk.containerName (Cdk.container s1) <> Cdk.containerName (Cdk.container s2)
    /\ Cdk.serviceName (Cdk.service s1) <> Cdk.serviceName (Cdk.service s2)
    /\ Cdk.pipelineId s1 <> Cdk.pipelineId s2
    /\ forall ev, Cdk.fires (Cdk.trigger s1) ev = [] \/ Cdk.fires (Cdk.trigger s2) ev = [].
Proof.
  eexists _, _. split; [reflexivity|]. split; [reflexivity|].
  apply (ecs_stacks_distinct example_aws Bin.AwsNestDockerStack_props
           Bin.AwsNestDockerDevStack_props); [reflexivity | reflexivity | reflexivity | discriminate].
Defined.




Lemma app_builder_feeds_pipeline_witness :
  let i := AppPart001 example_aws "nestapp-repo-1a2b3c" {| ApplicationStack.branchName := "master" |} in
  exists st ib, synth_env_stack i = Some st /\ app_image_builder i = Some ib
  /\ let img := Cdk.image (Cdk.container st) in
     let r := Cdk.imageRepositoryName img in
     let uri := repositoryUri (instance_aws i) r in
     ImageBuilderStack.ecrRepositoryName ib = r
     /\ Cdk.imageTag img = "latest"
     /\ (exists s, fst (ImageBuilderStack.run_build Regex.ere_match (example_checkout "master")
                          example_base ib) = Some s)
     /\ (forall s', snd (ImageBuilderStack.run_build Regex.ere_match (example_checkout "master")
                           example_base ib) = Some s' ->
         In ["docker"; "tag"; r +:+ ":" +:+ "0a1b2c3"; uri +:+ ":" +:+ Cdk.imageTag img]
            (BuildSpec.log s')
         /\ List.last (BuildSpec.log s') [] = ["docker"; "push"; uri])
     /\ Cdk.fires (Cdk.trigger st) (ecr_event "PUSH" (Cdk.imageTag img) r "SUCCESS")
        = [Cdk.StartPipeline (Cdk.pipelineId st)].
Proof.
  intros i. eexists _, _. split; [reflexivity|]. split; [reflexivity|].
  apply (app_builder_feeds_pipeline Regex.ere_match (example_checkout "master") example_base i
           _ _ "0a1b2c3" "17"); reflexivity.
Defined.

Lemma mapping_tag_invalid_word_fails_witness :
  BuildSpec.valid_name "b-c" = false
  /\ BuildSpec.exec Regex.ere_match (example_checkout "master")
       (ImageBuilderStack.mapping_cmd ("master", "prod b-c")) (example_state "master") = None.
Proof.
  split; [reflexivity|].
  apply (mapping_tag_invalid_word_fails Regex.ere_match (example_checkout "master") "master" "prod"
           "b-c" (example_state "master")); [reflexivity | reflexivity | discriminate | reflexivity
                                             | reflexivity].
Defined.
